(** * spmf-py: the SPMF wrapper class [Spmf] of [spmf/__init__.py]

    A shallow embedding of the class and of the Python built-ins it calls,
    followed by the properties of its input encoder, output decoder,
    constructor and command line.

    Text is modelled as [string]: sequences of characters with code points
    below 256; a [bytes] object is the [string] of its bytes, and the text
    decoded from the engine's output is the list of its code points.
    Python integers are [Z].  Exceptions are values of [exn];
    a computation that may raise returns a [result].  Methods that touch the
    file system take the [world] and return the new one; [parse_output]
    returns the object as it is left, also when it raises.

    A data frame is modelled as the list of its rows.

    Outside the model: characters above code point 255 in files, the
    interpreter's limit on the length of integer literals, [float] extra
    arguments, the CSV export, the bytes of a pickle, what [print] does
    with the engine's output, and what the operating system and the codec
    can refuse when a file is opened, read or created: the files of a
    [world] are regular files that hold text. *)

From Stdlib Require Import Bool Arith ZArith Lia List Ascii String.
From Stdlib Require Import DecimalString DecimalZ DecimalPos.
Import ListNotations.

Local Open Scope list_scope.
Local Open Scope string_scope.

(** ** Exceptions and results *)

Inductive exn : Type :=
| FileNotFoundError (msg : string)
| TypeError (msg : string)
| RuntimeError (msg : string)
| ValueError (literal : string)   (* invalid literal for int() with base 10 *)
| UnboundLocalError (var : string)
| AttributeError (msg : string)
| CalledProcessError (returncode : Z)
| UnicodeDecodeError (encoding : string).

Inductive result (A : Type) : Type :=
| Ok (a : A)
| Raise (e : exn).

Arguments Ok {A} a.
Arguments Raise {A} e.

Definition bind {A B : Type} (m : result A) (f : A -> result B) : result B :=
  match m with
  | Ok a => f a
  | Raise e => Raise e
  end.

Notation "x <- m ;; k" := (bind m (fun x => k))
  (at level 61, m at next level, right associativity).

(** [list(map(f, xs))] for an [f] that may raise: the first failure aborts. *)
Fixpoint map_result {A B : Type} (f : A -> result B) (xs : list A)
  : result (list B) :=
  match xs with
  | [] => Ok []
  | x :: xs' => y <- f x ;; ys <- map_result f xs' ;; Ok (y :: ys)
  end.

(** ** Python built-ins on [str] and [int] *)

Module Py.

Definition newline : ascii := "010"%char.

(** [str.isspace] on one character (code points below 256). *)
Definition isspace (c : ascii) : bool :=
  let n := nat_of_ascii c in
  (((9 <=? n) && (n <=? 13)) || ((28 <=? n) && (n <=? 32))
   || (n =? 133) || (n =? 160))%nat.

(** Decimal digits, as matched by [\d] and accepted by [int()]. *)
Definition isdigit (c : ascii) : bool :=
  let n := nat_of_ascii c in ((48 <=? n) && (n <=? 57))%nat.

Definition is_empty (s : string) : bool :=
  match s with EmptyString => true | String _ _ => false end.

Fixpoint lstrip (s : string) : string :=
  match s with
  | EmptyString => EmptyString
  | String c r => if isspace c then lstrip r else s
  end.

Fixpoint rstrip (s : string) : string :=
  match s with
  | EmptyString => EmptyString
  | String c r =>
      match rstrip r with
      | EmptyString => if isspace c then EmptyString else String c EmptyString
      | r' => String c r'
      end
  end.

(** [s.strip()] *)
Definition strip (s : string) : string := rstrip (lstrip s).

(** [s.split(sep)] for a non-empty separator: left to right, matches do
    not overlap, empty fragments are kept.  [skip] counts the characters of
    a matched separator still to be consumed, [cur] is the fragment being
    built. *)
Fixpoint split_go (sep : string) (skip : nat) (cur : string) (s : string)
  : list string :=
  match s with
  | EmptyString => [cur]
  | String c r =>
      match skip with
      | S n => split_go sep n cur r
      | O =>
          if prefix sep s
          then cur :: split_go sep (String.length sep - 1) EmptyString r
          else split_go sep 0 (cur ++ String c EmptyString) r
      end
  end.

Definition split (sep : string) (s : string) : list string :=
  split_go sep 0 EmptyString s.

(** [sub in s] *)
Fixpoint contains (sub : string) (s : string) : bool :=
  prefix sub s ||
  match s with
  | EmptyString => false
  | String _ r => contains sub r
  end.

(** [str(n)] for an [int]. *)
Definition str (n : Z) : string := NilZero.string_of_int (Z.to_int n).

(** Digits of an [int()] literal: single underscores are allowed between
    digits and dropped.  [prev] tells whether the previous character was a
    digit. *)
Fixpoint literal_digits (prev : bool) (s : string) : option string :=
  match s with
  | EmptyString => if prev then Some EmptyString else None
  | String c r =>
      if isdigit c then option_map (String c) (literal_digits true r)
      else if Ascii.eqb c "_" then
             if prev then literal_digits false r else None
      else None
  end.

Definition unsigned_literal (s : string) : option Z :=
  match literal_digits false s with
  | Some ds => option_map Z.of_uint (NilEmpty.uint_of_string ds)
  | None => None
  end.

(** The whitespace [int()] skips around a literal: the ASCII blanks
    (tab to carriage return, and the space) and, of the characters above
    127, those that are spaces.  The separators U+001C to U+001F, which
    [str.strip] removes, are not among them. *)
Definition int_space (c : ascii) : bool :=
  let n := nat_of_ascii c in
  (((9 <=? n) && (n <=? 13)) || (n =? 32) || (n =? 133) || (n =? 160))%nat.

(** Dropping the leading, and the trailing, characters of a class. *)
Fixpoint lskip (p : ascii -> bool) (s : string) : string :=
  match s with
  | EmptyString => EmptyString
  | String c r => if p c then lskip p r else s
  end.

Fixpoint rskip (p : ascii -> bool) (s : string) : string :=
  match s with
  | EmptyString => EmptyString
  | String c r =>
      match rskip p r with
      | EmptyString => if p c then EmptyString else String c EmptyString
      | r' => String c r'
      end
  end.

(** [int(s)] for a [str], base 10: surrounding whitespace is ignored, one
    optional sign, then digits. *)
Definition int (s : string) : result Z :=
  let t := rskip int_space (lskip int_space s) in
  let v :=
    match t with
    | String c r =>
        if Ascii.eqb c "-" then option_map Z.opp (unsigned_literal r)
        else if Ascii.eqb c "+" then unsigned_literal r
        else unsigned_literal t
    | EmptyString => unsigned_literal t
    end in
  match v with
  | Some z => Ok z
  | None => Raise (ValueError s)
  end.

(** Universal-newline translation done by a file opened in text mode:
    ["\r\n"] and a lone ["\r"] both read as ["\n"]. *)
Fixpoint translate_newlines (s : string) : string :=
  match s with
  | EmptyString => EmptyString
  | String c r =>
      if Ascii.eqb c "013" then
        match r with
        | String c' r' =>
            if Ascii.eqb c' newline then String newline (translate_newlines r')
            else String newline (translate_newlines r)
        | EmptyString => String newline EmptyString
        end
      else String c (translate_newlines r)
  end.

(** Lines of a text, each keeping its terminating newline. *)
Fixpoint lines_go (cur : string) (s : string) : list string :=
  match s with
  | EmptyString => if is_empty cur then [] else [cur]
  | String c r =>
      if Ascii.eqb c newline
      then (cur ++ String c EmptyString) :: lines_go EmptyString r
      else lines_go (cur ++ String c EmptyString) r
  end.

(** [f.readlines()] on the raw content of a file opened with mode ["r"]. *)
Definition readlines (content : string) : list string :=
  lines_go EmptyString (translate_newlines content).

(** [os.path.join(a, b)] (POSIX). *)
Fixpoint ends_with_slash (s : string) : bool :=
  match s with
  | EmptyString => false
  | String c EmptyString => Ascii.eqb c "/"
  | String _ r => ends_with_slash r
  end.

Definition path_join (a b : string) : string :=
  match b with
  | String "/" _ => b
  | _ => if is_empty a || ends_with_slash a then a ++ b else a ++ "/" ++ b
  end.

(** [b.decode()] of a [bytes] object, given as the string of its bytes:
    UTF-8, strict.  The text is the list of its code points. *)
Definition in_range (lo hi : N) (c : ascii) : bool :=
  let n := N_of_ascii c in (N.leb lo n && N.leb n hi)%bool.

Definition low6 (c : ascii) : N := (N_of_ascii c - 128)%N.

Definition decode_error {A : Type} : result A :=
  Raise (UnicodeDecodeError "utf-8").

Fixpoint utf8_decode (b : string) : result (list N) :=
  match b with
  | EmptyString => Ok []
  | String c0 r0 =>
      let n0 := N_of_ascii c0 in
      if N.ltb n0 128 then
        rest <- utf8_decode r0 ;; Ok (n0 :: rest)
      else if in_range 194 223 c0 then
        match r0 with
        | String c1 r1 =>
            if in_range 128 191 c1 then
              rest <- utf8_decode r1 ;;
              Ok (((n0 - 192) * 64 + low6 c1)%N :: rest)
            else decode_error
        | _ => decode_error
        end
      else if in_range 224 239 c0 then
        match r0 with
        | String c1 (String c2 r2) =>
            if (if N.eqb n0 224 then in_range 160 191 c1
                else if N.eqb n0 237 then in_range 128 159 c1
                else in_range 128 191 c1)
               && in_range 128 191 c2
            then
              rest <- utf8_decode r2 ;;
              Ok (((n0 - 224) * 4096 + low6 c1 * 64 + low6 c2)%N :: rest)
            else decode_error
        | _ => decode_error
        end
      else if in_range 240 244 c0 then
        match r0 with
        | String c1 (String c2 (String c3 r3)) =>
            if (if N.eqb n0 240 then in_range 144 191 c1
                else if N.eqb n0 244 then in_range 128 143 c1
                else in_range 128 191 c1)
               && in_range 128 191 c2 && in_range 128 191 c3
            then
              rest <- utf8_decode r3 ;;
              Ok (((n0 - 240) * 262144 + low6 c1 * 4096 + low6 c2 * 64
                   + low6 c3)%N :: rest)
            else decode_error
        | _ => decode_error
        end
      else decode_error
  end.

(** The code points of a text of the model. *)
Definition code_points (s : string) : list N :=
  map N_of_ascii (list_ascii_of_string s).

(** [sub in s] on code points. *)
Fixpoint starts_with (sub s : list N) : bool :=
  match sub, s with
  | [], _ => true
  | _ :: _, [] => false
  | x :: sub', y :: s' => N.eqb x y && starts_with sub' s'
  end.

Fixpoint contains_points (sub s : list N) : bool :=
  starts_with sub s ||
  match s with
  | [] => false
  | _ :: s' => contains_points sub s'
  end.

End Py.

(** ** The part of Python's [re] used by the decoder

    A backtracking matcher in continuation-passing style: alternatives are
    tried in the order in which [re] tries them (greedy first), and the first
    complete match wins. *)

Module Re.

Inductive regex : Type :=
| Eps                        (* the empty pattern *)
| Chr (c : ascii)            (* a literal character *)
| Dot                        (* [.]: any character but a newline *)
| Digit                      (* [\d] *)
| Bol                        (* [^] *)
| Eol                        (* [$]: at the end, or before a final newline *)
| Cat (r1 r2 : regex)
| Opt (r : regex)            (* [r?], greedy *)
| Plus (r : regex)           (* [r+], greedy *)
| Group (n : nat) (r : regex). (* capturing group number [n] *)

(** The text captured by each group that took part in the match, most
    recent first. *)
Definition captures : Type := list (nat * string).

(** A continuation receives the position reached, the rest of the subject
    and the captures so far. *)
Definition cont : Type := nat -> string -> captures -> option captures.

Definition or_else {A : Type} (a b : option A) : option A :=
  match a with
  | Some _ => a
  | None => b
  end.

Fixpoint run (r : regex) (i : nat) (s : string) (g : captures) (k : cont)
  {struct r} : option captures :=
  match r with
  | Eps => k i s g
  | Chr c =>
      match s with
      | String c' s' => if Ascii.eqb c c' then k (S i) s' g else None
      | EmptyString => None
      end
  | Dot =>
      match s with
      | String c' s' => if Ascii.eqb c' Py.newline then None else k (S i) s' g
      | EmptyString => None
      end
  | Digit =>
      match s with
      | String c' s' => if Py.isdigit c' then k (S i) s' g else None
      | EmptyString => None
      end
  | Bol => if Nat.eqb i 0 then k i s g else None
  | Eol =>
      match s with
      | EmptyString => k i s g
      | String c' EmptyString => if Ascii.eqb c' Py.newline then k i s g else None
      | _ => None
      end
  | Cat r1 r2 => run r1 i s g (fun i' s' g' => run r2 i' s' g' k)
  | Opt r1 => or_else (run r1 i s g k) (k i s g)
  | Plus r1 =>
      (fix loop (fuel : nat) (i : nat) (s : string) (g : captures)
         : option captures :=
         match fuel with
         | O => None
         | S fuel' =>
             run r1 i s g (fun i' s' g' =>
               or_else (if Nat.ltb i i' then loop fuel' i' s' g' else None)
                       (k i' s' g'))
         end) (S (String.length s)) i s g
  | Group n r1 =>
      run r1 i s g (fun i' s' g' => k i' s' ((n, substring 0 (i' - i) s) :: g'))
  end.

(** A literal string. *)
Fixpoint Lit (s : string) : regex :=
  match s with
  | EmptyString => Eps
  | String c s' => Cat (Chr c) (Lit s')
  end.

(** A sequence of sub-patterns. *)
Definition Seq (rs : list regex) : regex := fold_right Cat Eps rs.

(** [re.search]: the match at the leftmost position that has one. *)
Fixpoint search_from (r : regex) (i : nat) (s : string) : option captures :=
  or_else (run r i s [] (fun _ _ g => Some g))
          match s with
          | EmptyString => None
          | String _ s' => search_from r (S i) s'
          end.

Definition search (r : regex) (s : string) : option captures :=
  search_from r 0 s.

(** [match.group(n)]: [None] when the group took no part in the match. *)
Fixpoint group (n : nat) (g : captures) : option string :=
  match g with
  | [] => None
  | (m, t) :: g' => if Nat.eqb n m then Some t else group n g'
  end.

End Re.

(** ** The class [Spmf] *)

(** One decoded output line: the tuple [(pattern, support, sequence_ids)]. *)
Definition Pattern : Type := (list Z * Z * list Z)%type.

Definition elements (p : Pattern) : list Z := fst (fst p).
Definition support (p : Pattern) : Z := snd (fst p).
Definition sequence_ids (p : Pattern) : list Z := snd p.

(** The object's attributes.  [df_] holds the rows of the data frame once
    one has been built. *)
Record Spmf : Type := mkSpmf {
  executable_dir_ : string;
  executable_ : string;
  is_exist_executable_ : bool;
  agorithm_name_ : string;
  input_ : string;
  output_ : string;
  arguments_ : list string;
  parsed_output_ : list Pattern;
  df_ : option (list Pattern);
  memory_ : Z
}.

Definition set_parsed_output_ (self : Spmf) (v : list Pattern) : Spmf :=
  {| executable_dir_ := executable_dir_ self;
     executable_ := executable_ self;
     is_exist_executable_ := is_exist_executable_ self;
     agorithm_name_ := agorithm_name_ self;
     input_ := input_ self;
     output_ := output_ self;
     arguments_ := arguments_ self;
     parsed_output_ := v;
     df_ := df_ self;
     memory_ := memory_ self |}.

(** *** Decoder: [parse_output] *)

(** [r'^(.+)(-2 )?#SUP: (\d+) #SID: (.+)$'] *)
Definition output_regex : Re.regex :=
  Re.Seq [ Re.Bol;
           Re.Group 1 (Re.Plus Re.Dot);
           Re.Opt (Re.Group 2 (Re.Lit "-2 "));
           Re.Lit "#SUP: ";
           Re.Group 3 (Re.Plus Re.Digit);
           Re.Lit " #SID: ";
           Re.Group 4 (Re.Plus Re.Dot);
           Re.Eol ].

Definition unparsable_message : string :=
  "cannot parse SPMF output. check if format is desired.".

(** [match.groups()] of the four groups. *)
Definition groups (m : Re.captures)
  : option string * option string * option string * option string :=
  (Re.group 1 m, Re.group 2 m, Re.group 3 m, Re.group 4 m).

(** A method call on a group: [None] has no attributes. *)
Definition attr (g : option string) : result string :=
  match g with
  | Some t => Ok t
  | None => Raise (AttributeError "'NoneType' object has no attribute 'split'")
  end.

(** [int(g)] on a group. *)
Definition int_of_group (g : option string) : result Z :=
  match g with
  | Some t => Py.int t
  | None => Raise (TypeError "int() argument must be a string or a number")
  end.

(** The groups of a line as the loop body sees them. *)
Definition groups_of_line (line : string)
  : option (option string * option string * option string * option string) :=
  option_map groups (Re.search output_regex (Py.strip line)).

(** The body of the loop of [parse_output] for one line. *)
Definition parse_line (line : string) : result Pattern :=
  let line := Py.strip line in
  match Re.search output_regex line with
  | None => Raise (RuntimeError unparsable_message)
  | Some m =>
      let '(pattern, _, support, sequence_ids) := groups m in
      pattern <- attr pattern ;;
      pattern <- map_result Py.int
                   (filter (fun s => Nat.ltb 0 (String.length s))
                           (Py.split " -1 " pattern)) ;;
      support <- int_of_group support ;;
      sequence_ids <- attr sequence_ids ;;
      sequence_ids <- map_result Py.int (Py.split " " sequence_ids) ;;
      Ok (pattern, support, sequence_ids)
  end.

Arguments parse_line : simpl never.

(** The loop itself; [parsed_output] is the local list being appended to. *)
Fixpoint parse_lines (lines : list string) (parsed_output : list Pattern)
  : result (list Pattern) :=
  match lines with
  | [] => Ok parsed_output
  | line :: rest =>
      p <- parse_line line ;; parse_lines rest (parsed_output ++ [p])%list
  end.

(** *** The file system and the temporary-file facility *)

(** Regular files with their text, the directory of the installed module
    ([os.path.dirname(os.path.realpath(__file__))]) and a supply of unused
    temporary names. *)
Record world : Type := mkWorld {
  files : list (string * string);
  module_dir : string;
  tmp_counter : nat
}.

Fixpoint read_file (fs : list (string * string)) (path : string)
  : option string :=
  match fs with
  | [] => None
  | (p, c) :: fs' => if String.eqb p path then Some c else read_file fs' path
  end.

(** [os.path.isfile] *)
Definition isfile (w : world) (path : string) : bool :=
  match read_file (files w) path with
  | Some _ => true
  | None => false
  end.

Definition remove_file (fs : list (string * string)) (path : string)
  : list (string * string) :=
  filter (fun e => negb (String.eqb (fst e) path)) fs.

Definition write_file (fs : list (string * string)) (path content : string)
  : list (string * string) :=
  (path, content) :: remove_file fs path.

(** [os.rename] of an existing file; an existing target is replaced. *)
Definition rename_file (fs : list (string * string)) (src dst : string)
  : list (string * string) :=
  match read_file fs src with
  | Some c => (dst, c) :: remove_file (remove_file fs src) dst
  | None => fs
  end.

(** The name drawn by [tempfile.NamedTemporaryFile]. *)
Definition tmp_name (n : nat) : string :=
  "/tmp/tmp" ++ Py.str (Z.of_nat n).

(** [open(self.output_, "r")] followed by [readlines], then the loop and
    the final assignment to [self.parsed_output_]. *)
Definition parse_output (w : world) (self : Spmf) : result unit * Spmf :=
  match read_file (files w) (output_ self) with
  | None => (Raise (FileNotFoundError (output_ self)), self)
  | Some content =>
      let lines := Py.readlines content in
      match parse_lines lines [] with
      | Ok parsed_output => (Ok tt, set_parsed_output_ self parsed_output)
      | Raise e => (Raise e, self)
      end
  end.

(** *** Encoder: [handle_input] and [write_temp_input_file] *)

Definition write_temp_input_file (input_text file_ending : string) (w : world)
  : result string * world :=
  let name := tmp_name (tmp_counter w) in
  let fs := write_file (files w) name "" in            (* NamedTemporaryFile *)
  let fs := write_file fs name input_text in           (* tf.write *)
  let fs := rename_file fs name (name ++ file_ending) in (* os.rename *)
  (Ok (name ++ file_ending),
   {| files := fs; module_dir := module_dir w;
      tmp_counter := S (tmp_counter w) |}).

(** The values [input_direct] is given: [None], a [str], a list of
    sequences of itemsets of [int], a list of [str], or an object of another
    type. *)
Inductive py_input : Type :=
| InNone
| InStr (text : string)
| InSequences (db : list (list (list Z)))
| InTexts (l : list string)
| InObject.

Definition nl : string := String Py.newline EmptyString.

(** The three nested loops of the normal encoding; [seq_spmf] is the
    string being appended to. *)
Definition encode_item_set (seq_spmf : string) (item_set : list Z) : string :=
  fold_left (fun acc item => acc ++ (Py.str item ++ " ")) item_set seq_spmf
  ++ (Py.str (-1) ++ " ").

Definition encode_seq (seq_spmf : string) (seq : list (list Z)) : string :=
  fold_left encode_item_set seq seq_spmf ++ (Py.str (-2) ++ nl).

Definition encode_normal (input_direct : list (list (list Z))) : string :=
  fold_left encode_seq input_direct "".

(** The same loops over a list of [str]: iterating a [str] yields its
    characters, and a character iterates to itself. *)
Definition chars (s : string) : list string :=
  map (fun c => String c EmptyString) (list_ascii_of_string s).

Definition encode_normal_texts (input_direct : list string) : string :=
  fold_left
    (fun acc seq =>
       fold_left (fun acc item_set => acc ++ (item_set ++ " ")
                                          ++ (Py.str (-1) ++ " "))
                 (chars seq) acc
       ++ (Py.str (-2) ++ nl))
    input_direct "".

(** The loop of the text encoding. *)
Definition encode_text (input_direct : list string) : string :=
  fold_left (fun seq_str seq => seq_str ++ (seq ++ ". ")) input_direct "".

Definition no_input_message : string :=
  "no correct input format found (required: " ++
  "list or str, or input file via" ++
  " input_filename parameter)".

Definition handle_input (input_direct : py_input)
  (input_filename input_type : string) (w : world) : result string * world :=
  if negb (Py.is_empty input_filename) then (Ok input_filename, w)
  else
    match input_direct with
    | InStr text =>
        let file_ending :=
          if String.eqb input_type "normal" then Some ".txt"
          else if String.eqb input_type "text" then Some ".text"
          else None in
        match file_ending with
        | Some file_ending => write_temp_input_file text file_ending w
        | None => (Raise (UnboundLocalError "file_ending"), w)
        end
    | InSequences db =>
        if String.eqb input_type "normal"
        then write_temp_input_file (encode_normal db) ".txt" w
        else if String.eqb input_type "text"
        then match db with
             | [] => write_temp_input_file "" ".text" w
             | _ :: _ =>
                 (* [seq + ". "] with [seq] a list *)
                 (Raise (TypeError "can only concatenate list to list"), w)
             end
        else (Raise (TypeError no_input_message), w)
    | InTexts l =>
        if String.eqb input_type "normal"
        then write_temp_input_file (encode_normal_texts l) ".txt" w
        else if String.eqb input_type "text"
        then write_temp_input_file (encode_text l) ".text" w
        else (Raise (TypeError no_input_message), w)
    | InNone | InObject => (Raise (TypeError no_input_message), w)
    end.

(** *** Constructor *)

(** An extra argument of the algorithm before [str] is applied to it. *)
Inductive py_arg : Type :=
| ArgStr (s : string)
| ArgInt (n : Z).

Definition str_of_arg (a : py_arg) : string :=
  match a with
  | ArgStr s => s
  | ArgInt n => Py.str n
  end.

Definition not_found_message (executable : string) : string :=
  executable ++ " not found. Please" ++ " use the spmf_bin_location_dir argument.".

Definition __init__ (algorithm_name : string) (input_direct : py_input)
  (input_type input_filename output_filename : string)
  (arguments : list py_arg) (spmf_bin_location_dir : string) (memory : Z)
  (w : world) : result Spmf * world :=
  let executable_dir := spmf_bin_location_dir in
  let executable := "spmf.jar" in
  let is_exist_executable := isfile w (Py.path_join executable_dir executable) in
  let '(executable_dir, is_exist_executable) :=
    if negb is_exist_executable
    then (module_dir w, isfile w (Py.path_join (module_dir w) executable))
    else (executable_dir, is_exist_executable) in
  if negb is_exist_executable
  then (Raise (FileNotFoundError (not_found_message executable)), w)
  else
    match handle_input input_direct input_filename input_type w with
    | (Raise e, w') => (Raise e, w')
    | (Ok input, w') =>
        (Ok {| executable_dir_ := executable_dir;
               executable_ := executable;
               is_exist_executable_ := is_exist_executable;
               agorithm_name_ := algorithm_name;
               input_ := input;
               output_ := output_filename;
               arguments_ := map str_of_arg arguments;
               parsed_output_ := [];
               df_ := None;
               memory_ := memory |}, w')
    end.

(** *** Engine invocation: [run] *)

(** The list passed to [subprocess.check_output]. *)
Definition subprocess_arguments (self : Spmf) : list string :=
  let args := ["java"] in
  let args :=
    if Z.eqb (memory_ self) 0 then args
    else (args ++ [("-Xmx" ++ Py.str (memory_ self) ++ "m")%string])%list in
  let args :=
    (args ++ ["-jar";
              Py.path_join (executable_dir_ self) (executable_ self);
              "run";
              agorithm_name_ self;
              input_ self; output_ self])%list in
  (args ++ arguments_ self)%list.

(** [check_output] stands for the engine process: the bytes it prints, or
    the exception of a failed call.  [proc.decode()] turns them into text
    and may raise; what [print] then does with the text is not modelled. *)
Definition run (check_output : list string -> result string) (self : Spmf)
  : result unit :=
  proc <- check_output (subprocess_arguments self) ;;
  proc_output <- Py.utf8_decode proc ;;
  if Py.contains_points
       (Py.code_points "java.lang.IllegalArgumentException") proc_output
  then Raise (TypeError "java.lang.IllegalArgumentException")
  else Ok tt.

(** ** Re-tokenizing an encoded input

    Following the specification's words: the text is cut into tokens at
    whitespace; a token [-1] closes the current itemset, a token [-2]
    closes the current sequence, any other token is an item. *)

Fixpoint words_go (cur : string) (s : string) : list string :=
  match s with
  | EmptyString => if Py.is_empty cur then [] else [cur]
  | String c r =>
      if Py.isspace c
      then if Py.is_empty cur then words_go "" r else cur :: words_go "" r
      else words_go (cur ++ String c EmptyString) r
  end.

Definition words (s : string) : list string := words_go "" s.

Fixpoint regroup (toks : list Z) (seqs : list (list (list Z)))
  (sets : list (list Z)) (items : list Z) : option (list (list (list Z))) :=
  match toks with
  | [] =>
      match sets, items with
      | [], [] => Some seqs
      | _, _ => None
      end
  | t :: r =>
      if Z.eqb t (-1) then regroup r seqs (sets ++ [items])%list []
      else if Z.eqb t (-2) then
             match items with
             | [] => regroup r (seqs ++ [sets])%list [] []
             | _ :: _ => None
             end
      else regroup r seqs sets (items ++ [t])%list
  end.

Definition spec_retokenize (text : string) : option (list (list (list Z))) :=
  match map_result Py.int (words text) with
  | Ok toks => regroup toks [] [] []
  | Raise _ => None
  end.

(** ** Auxiliary notions used in the statements *)

Fixpoint all_chars (p : ascii -> bool) (s : string) : bool :=
  match s with
  | EmptyString => true
  | String c r => p c && all_chars p r
  end.

(** A token: non-empty and free of whitespace. *)
Definition is_token (t : string) : Prop :=
  t <> "" /\ all_chars (fun c => negb (Py.isspace c)) t = true.

(** Text made of tokens, each followed by one separator character. *)
Fixpoint render (l : list (string * ascii)) : string :=
  match l with
  | [] => ""
  | (t, c) :: l' => t ++ String c (render l')
  end.

(** The tokens an encoded collection is made of. *)
Definition item_set_tokens (item_set : list Z) : list Z :=
  (item_set ++ [-1])%list%Z.

Definition seq_tokens (seq : list (list Z)) : list Z :=
  (flat_map item_set_tokens seq ++ [-2])%list%Z.

Definition db_tokens (db : list (list (list Z))) : list Z :=
  flat_map seq_tokens db.

Definition item_set_render (item_set : list Z) : list (string * ascii) :=
  (map (fun i => (Py.str i, " "%char)) item_set ++ [(Py.str (-1), " "%char)])%list.

Definition seq_render (seq : list (list Z)) : list (string * ascii) :=
  (flat_map item_set_render seq ++ [(Py.str (-2), Py.newline)])%list.

Definition db_render (db : list (list (list Z))) : list (string * ascii) :=
  flat_map seq_render db.

(** No item of the collection is one of the two sentinels. *)
Definition is_item (i : Z) : Prop := i <> (-1)%Z /\ i <> (-2)%Z.

Definition sentinel_free (db : list (list (list Z))) : Prop :=
  Forall (Forall (Forall is_item)) db.

(** An object as the constructor leaves it, for a given output path. *)
Definition fresh_object (output_filename : string) (memory : Z) : Spmf :=
  {| executable_dir_ := ".";
     executable_ := "spmf.jar";
     is_exist_executable_ := true;
     agorithm_name_ := "PrefixSpan";
     input_ := "input.txt";
     output_ := output_filename;
     arguments_ := ["50%"];
     parsed_output_ := [];
     df_ := None;
     memory_ := memory |}.

(** A world holding the engine next to the caller and one output file. *)
Definition world_with_output (content : string) : world :=
  {| files := [("./spmf.jar", "jar"); ("spmf-output.txt", content)];
     module_dir := "/usr/lib/python3/site-packages/spmf";
     tmp_counter := 0 |}.

(** A world without the engine. *)
Definition world_without_engine : world :=
  {| files := [("data.txt", "1 -1 -2")];
     module_dir := "/usr/lib/python3/site-packages/spmf";
     tmp_counter := 0 |}.

(** Sample lines of output files. *)
Definition line_single_items : string := "1 -1 #SUP: 3 #SID: 0 1 2" ++ nl.
Definition line_two_items : string := "1 2 -1 3 -1 #SUP: 2 #SID: 0 1" ++ nl.
Definition line_garbage : string := "garbage" ++ nl.

(** *** Data frame: [to_pandas_dataframe] *)

Definition set_df_ (self : Spmf) (v : option (list Pattern)) : Spmf :=
  {| executable_dir_ := executable_dir_ self;
     executable_ := executable_ self;
     is_exist_executable_ := is_exist_executable_ self;
     agorithm_name_ := agorithm_name_ self;
     input_ := input_ self;
     output_ := output_ self;
     arguments_ := arguments_ self;
     parsed_output_ := parsed_output_ self;
     df_ := v;
     memory_ := memory_ self |}.

(** [s.replace(old, new)] for a non-empty [old]: every occurrence, left to
    right, without overlap. *)
Definition str_replace (old new s : string) : string :=
  String.concat new (Py.split old s).

(** A data frame is the list of its rows; the row built from the dict with
    keys [pattern], [sup] and [sequence_ids] is the triple of their values.
    [to_pickle] stands for the serialization written by [df.to_pickle]. *)
Definition to_pandas_dataframe (to_pickle : list Pattern -> string)
  (pickle : bool) (w : world) (self : Spmf)
  : result (list Pattern) * Spmf * world :=
  let '(r, self) :=
    match parsed_output_ self with
    | [] => parse_output w self            (* [if not self.parsed_output_] *)
    | _ :: _ => (Ok tt, self)
    end in
  match r with
  | Raise e => (Raise e, self, w)
  | Ok _ =>
      let patterns_dict_list :=
        fold_left
          (fun acc '(pattern, support, sequence_ids) =>
             (acc ++ [(pattern, support, sequence_ids)])%list)
          (parsed_output_ self) [] in
      let df := patterns_dict_list in
      let self := set_df_ self (Some df) in
      let w :=
        if pickle
        then {| files := write_file (files w)
                           (str_replace ".txt" ".pkl" (output_ self))
                           (to_pickle df);
                module_dir := module_dir w;
                tmp_counter := tmp_counter w |}
        else w in
      (Ok df, self, w)
  end.

(** ** Notions used for the decoder's regular expression *)

(** The loop that [Re.run] performs for [Plus r] under continuation [k]. *)
Definition plus_loop (r : Re.regex) (k : Re.cont)
  : nat -> nat -> string -> Re.captures -> option Re.captures :=
  fix loop (fuel : nat) (i : nat) (s : string) (g : Re.captures)
    : option Re.captures :=
    match fuel with
    | O => None
    | S fuel' =>
        Re.run r i s g (fun i' s' g' =>
          Re.or_else (if Nat.ltb i i' then loop fuel' i' s' g' else None)
                     (k i' s' g'))
    end.

(** The final continuation of [Re.search]. *)
Definition accept : Re.cont := fun _ _ g => Some g.

(** The parts of [output_regex] after the first group. *)
Definition regex_after_sid : Re.regex :=
  Re.Seq [Re.Group 4 (Re.Plus Re.Dot); Re.Eol].

Definition regex_after_support : Re.regex :=
  Re.Cat (Re.Lit " #SID: ") regex_after_sid.

Definition regex_after_marker : Re.regex :=
  Re.Cat (Re.Lit "#SUP: ")
         (Re.Cat (Re.Group 3 (Re.Plus Re.Digit)) regex_after_support).

Definition regex_after_body : Re.regex :=
  Re.Cat (Re.Opt (Re.Group 2 (Re.Lit "-2 "))) regex_after_marker.


(** Classes of characters. *)
Definition not_newline (c : ascii) : bool := negb (Ascii.eqb c Py.newline).

Definition not_space (c : ascii) : bool := negb (Py.isspace c).

(** Digits and the minus sign: what [str] prints. *)
Definition str_char (c : ascii) : bool := Py.isdigit c || Ascii.eqb c "-".

(** Digits and blanks: what a list of sequence ids is written with. *)
Definition id_char (c : ascii) : bool := Py.isdigit c || Ascii.eqb c " ".

(** Neither a line feed nor a carriage return. *)
Definition plain_char (c : ascii) : bool :=
  negb (Ascii.eqb c Py.newline) && negb (Ascii.eqb c "013").

(** A line of the output format for a Pattern whose itemsets hold one
    item each: every element followed by the itemset sentinel. *)
Fixpoint render_body (elems : list Z) : string :=
  match elems with
  | [] => ""
  | e :: elems' => Py.str e ++ " -1 " ++ render_body elems'
  end.

Definition render_tail (support : Z) (sids : list Z) : string :=
  "#SUP: " ++ Py.str support ++ " #SID: "
  ++ String.concat " " (map Py.str sids).

Definition render_pattern (p : Pattern) : string :=
  render_body (elements p) ++ render_tail (support p) (sequence_ids p).

(** The same line with the end-of-sequence marker before [#SUP:]. *)
Definition render_pattern_marked (p : Pattern) : string :=
  render_body (elements p) ++ "-2 "
  ++ render_tail (support p) (sequence_ids p).

(** The body of a line whose first itemset holds the two items [a] and
    [b], followed by single-item itemsets. *)
Definition render_two_item_body (a b : Z) (elems : list Z) : string :=
  Py.str a ++ " " ++ Py.str b ++ " -1 " ++ render_body elems.


(** A Pattern as the engine reports one with single-item itemsets: at
    least one element, a support and sequence ids that are not negative,
    at least one sequence id. *)
Definition printable (p : Pattern) : Prop :=
  elements p <> [] /\ (0 <= support p)%Z
  /\ sequence_ids p <> [] /\ Forall (fun i => (0 <= i)%Z) (sequence_ids p).

(* ================================================================== *)
(** * Properties *)

(** ** Decoder *)

(** C1: the line ["1 2 -1 3 -1 #SUP: 2 #SID: 0 1"] matches the regular
    expression, its first group is ["1 2 -1 3 -1 "], and converting the
    fragment ["1 2"] makes [int] raise [ValueError]: no Pattern with elements
    [1,2,3] is produced, neither by the loop body nor by [parse_output] on
    the artifact holding that single line, which leaves [parsed_output_]
    as it was. *)
Theorem C1_two_item_itemset_raises_ValueError :
  groups_of_line "1 2 -1 3 -1 #SUP: 2 #SID: 0 1"
    = Some (Some "1 2 -1 3 -1 ", None, Some "2", Some "0 1")
  /\ parse_line "1 2 -1 3 -1 #SUP: 2 #SID: 0 1" = Raise (ValueError "1 2")
  /\ parse_output (world_with_output "1 2 -1 3 -1 #SUP: 2 #SID: 0 1")
                  (fresh_object "spmf-output.txt" 0)
     = (Raise (ValueError "1 2"), fresh_object "spmf-output.txt" 0).
Proof. repeat split; vm_compute; reflexivity. Qed.

(** C2: with the marker, the greedy first group takes ["-2 "] along, the
    optional group stays unmatched, and [-2] ends up as a last element; the
    same line without the marker decodes to the items alone. *)
Theorem C2_marker_kept_as_element :
  groups_of_line "1 -1 3 -1 -2 #SUP: 1 #SID: 0"
    = Some (Some "1 -1 3 -1 -2 ", None, Some "1", Some "0")
  /\ parse_line "1 -1 3 -1 -2 #SUP: 1 #SID: 0" = Ok ([1; 3; -2], 1, [0])%Z
  /\ parse_line "1 -1 3 -1 #SUP: 1 #SID: 0" = Ok ([1; 3], 1, [0])%Z
  /\ parse_line "1 2 -1 3 -1 -2 #SUP: 1 #SID: 0" = Raise (ValueError "1 2")
  /\ parse_line "1 2 -1 3 -1 #SUP: 1 #SID: 0" = Raise (ValueError "1 2").
Proof. repeat split; vm_compute; reflexivity. Qed.

(** *** The loop over the lines *)

Lemma bind_Ok {A B : Type} (m : result A) (f : A -> result B) (b : B) :
  bind m f = Ok b -> exists a, m = Ok a /\ f a = Ok b.
Proof.
  destruct m as [a | e]; simpl; intros H.
  - exists a. split; [reflexivity | exact H].
  - discriminate H.
Qed.

Lemma parse_lines_app (pre rest : list string) (acc : list Pattern) :
  parse_lines (pre ++ rest)%list acc
  = bind (parse_lines pre acc) (fun ps => parse_lines rest ps).
Proof.
  revert acc. induction pre as [| l pre IH]; intros acc; simpl.
  - reflexivity.
  - destruct (parse_line l) as [p | e]; simpl.
    + apply IH.
    + reflexivity.
Qed.

(** The loop succeeds exactly when every line decodes, and then appends
    the Patterns of the lines, one for each, in the order of the lines. *)
Lemma parse_lines_Ok (lines : list string) (acc out : list Pattern) :
  parse_lines lines acc = Ok out <->
  exists ps, Forall2 (fun l p => parse_line l = Ok p) lines ps
             /\ out = (acc ++ ps)%list.
Proof.
  revert acc out. induction lines as [| l lines IH]; intros acc out; simpl.
  - split.
    + intros [= <-]. exists []. split; [constructor | now rewrite app_nil_r].
    + intros (ps & HF & ->). inversion HF. now rewrite app_nil_r.
  - split.
    + intros H. apply bind_Ok in H. destruct H as (p & Hp & H).
      apply IH in H. destruct H as (ps & HF & ->).
      exists (p :: ps). split; [now constructor | now rewrite <- app_assoc].
    + intros (ps & HF & ->). inversion HF as [| l' p lines' ps' Hp HF' ]; subst.
      rewrite Hp. simpl. apply IH. exists ps'.
      split; [assumption | now rewrite <- app_assoc].
Qed.

Lemma parse_lines_all_decode (lines : list string) (acc : list Pattern) :
  (forall l, In l lines -> exists p, parse_line l = Ok p) ->
  exists ps, parse_lines lines acc = Ok (acc ++ ps)%list
             /\ Forall2 (fun l p => parse_line l = Ok p) lines ps.
Proof.
  revert acc. induction lines as [| l lines IH]; intros acc H.
  - exists []. simpl. rewrite app_nil_r. split; [reflexivity | constructor].
  - destruct (H l (or_introl eq_refl)) as [p Hp].
    destruct (IH (acc ++ [p])%list) as (ps & Hps & HF).
    { intros l' Hl'. apply H. now right. }
    exists (p :: ps). simpl. rewrite Hp. simpl. rewrite Hps.
    rewrite <- app_assoc. split; [reflexivity | now constructor].
Qed.

Lemma parse_line_no_match (line : string) :
  Re.search output_regex (Py.strip line) = None ->
  parse_line line = Raise (RuntimeError unparsable_message).
Proof. intros H. unfold parse_line. rewrite H. reflexivity. Qed.

(** Whenever [parse_output] returns, [parsed_output_] holds one Pattern for
    each line of the file, the n-th Pattern decoded from the n-th line, and
    nothing else of the object has changed. *)
Lemma parse_output_one_pattern_per_line (w : world) (self self' : Spmf)
  (content : string) :
  read_file (files w) (output_ self) = Some content ->
  parse_output w self = (Ok tt, self') ->
  self' = set_parsed_output_ self (parsed_output_ self')
  /\ Forall2 (fun l p => parse_line l = Ok p)
             (Py.readlines content) (parsed_output_ self')
  /\ List.length (parsed_output_ self') = List.length (Py.readlines content).
Proof.
  intros Hr H. unfold parse_output in H. rewrite Hr in H.
  destruct (parse_lines (Py.readlines content) []) as [out | e] eqn:E;
    [| discriminate H].
  injection H as <-. simpl.
  apply parse_lines_Ok in E. destruct E as (ps & HF & ->). simpl.
  repeat split; [assumption |].
  symmetry. eapply Forall2_length; eassumption.
Qed.

(** When every line decodes, [parse_output] returns. *)
Lemma parse_output_returns (w : world) (self : Spmf) (content : string) :
  read_file (files w) (output_ self) = Some content ->
  (forall l, In l (Py.readlines content) -> exists p, parse_line l = Ok p) ->
  exists ps, parse_output w self = (Ok tt, set_parsed_output_ self ps)
             /\ Forall2 (fun l p => parse_line l = Ok p)
                        (Py.readlines content) ps.
Proof.
  intros Hr H. unfold parse_output. rewrite Hr.
  destruct (parse_lines_all_decode _ [] H) as (ps & -> & HF).
  exists ps. split; [reflexivity | assumption].
Qed.

(** C3, as stated, fails: the artifact whose only line is
    ["garbage line without sentinel"] does not match, and the error raised
    carries a fixed message in which that line does not occur. *)
Lemma C3_error_message_does_not_name_line :
  Py.readlines "garbage line without sentinel"
    = ["garbage line without sentinel"]
  /\ Re.search output_regex (Py.strip "garbage line without sentinel") = None
  /\ ~ (exists msg,
          fst (parse_output (world_with_output "garbage line without sentinel")
                            (fresh_object "spmf-output.txt" 0))
            = Raise (RuntimeError msg)
          /\ Py.contains "garbage line without sentinel" msg = true).
Proof.
  split; [reflexivity |]. split; [vm_compute; reflexivity |].
  intros (msg & H & Hc). vm_compute in H. injection H as <-.
  vm_compute in Hc. discriminate Hc.
Qed.

(** C3, amended: a line that does not match the regular expression makes
    [parse_output] raise and leave the object as it was, Patterns of earlier
    lines included; when every earlier line decodes, the exception is the
    [RuntimeError] with the fixed message. *)
Theorem C3_unmatched_line_aborts_decode (w : world) (self : Spmf)
  (content : string) (pre post : list string) (line : string) :
  read_file (files w) (output_ self) = Some content ->
  Py.readlines content = (pre ++ line :: post)%list ->
  Re.search output_regex (Py.strip line) = None ->
  (exists e, parse_output w self = (Raise e, self))
  /\ ((forall l, In l pre -> exists p, parse_line l = Ok p) ->
      parse_output w self = (Raise (RuntimeError unparsable_message), self)).
Proof.
  intros Hr Hl Hm. unfold parse_output. rewrite Hr, Hl, parse_lines_app.
  apply parse_line_no_match in Hm. split.
  - destruct (parse_lines pre []) as [ps | e]; simpl.
    + rewrite Hm. simpl. now exists (RuntimeError unparsable_message).
    + now exists e.
  - intros Hpre.
    destruct (parse_lines_all_decode pre [] Hpre) as (ps & -> & _).
    simpl. rewrite Hm. reflexivity.
Qed.

Lemma C3_unmatched_line_aborts_decode_witness :
  read_file (files (world_with_output
                      (line_single_items ++ line_garbage)))
            (output_ (fresh_object "spmf-output.txt" 0))
    = Some (line_single_items ++ line_garbage)
  /\ Py.readlines (line_single_items ++ line_garbage)
     = ([line_single_items] ++ line_garbage :: [])%list
  /\ Re.search output_regex (Py.strip line_garbage) = None
  /\ ((exists e,
         parse_output
           (world_with_output
              (line_single_items ++ line_garbage))
           (fresh_object "spmf-output.txt" 0)
         = (Raise e, fresh_object "spmf-output.txt" 0))
      /\ ((forall l, In l [line_single_items] ->
                     exists p, parse_line l = Ok p) ->
          parse_output
            (world_with_output
               (line_single_items ++ line_garbage))
            (fresh_object "spmf-output.txt" 0)
          = (Raise (RuntimeError unparsable_message),
             fresh_object "spmf-output.txt" 0))).
Proof.
  split; [reflexivity |]. split; [reflexivity |].
  split; [vm_compute; reflexivity |].
  apply (C3_unmatched_line_aborts_decode
           (world_with_output
              (line_single_items ++ line_garbage))
           (fresh_object "spmf-output.txt" 0)
           (line_single_items ++ line_garbage)
           [line_single_items] [] line_garbage);
    [reflexivity | reflexivity | vm_compute; reflexivity].
Defined.

(** C6: every line of the two-line artifact below matches the regular
    expression, yet [parse_output] raises [ValueError] on the second line
    and stores no Pattern at all. *)
Theorem C6_matching_lines_not_decoded :
  Forall (fun l => Re.search output_regex (Py.strip l) <> None)
         (Py.readlines (line_single_items ++ line_two_items))
  /\ List.length (Py.readlines (line_single_items ++ line_two_items)) = 2
  /\ parse_output
       (world_with_output (line_single_items ++ line_two_items))
       (fresh_object "spmf-output.txt" 0)
     = (Raise (ValueError "1 2"), fresh_object "spmf-output.txt" 0).
Proof.
  split; [| split; vm_compute; reflexivity].
  replace (Py.readlines (line_single_items ++ line_two_items))
    with [line_single_items; line_two_items] by (vm_compute; reflexivity).
  repeat constructor; vm_compute; discriminate.
Qed.

(** C7: on an empty output file [parse_output] returns and stores the
    empty list. *)
Theorem C7_empty_artifact_decodes_to_no_pattern (w : world) (self : Spmf) :
  read_file (files w) (output_ self) = Some "" ->
  parse_output w self = (Ok tt, set_parsed_output_ self [])
  /\ parsed_output_ (snd (parse_output w self)) = [].
Proof.
  intros Hr. unfold parse_output. rewrite Hr. simpl. split; reflexivity.
Qed.

Lemma C7_empty_artifact_decodes_to_no_pattern_witness :
  read_file (files (world_with_output ""))
            (output_ (fresh_object "spmf-output.txt" 0)) = Some ""
  /\ (parse_output (world_with_output "") (fresh_object "spmf-output.txt" 0)
      = (Ok tt, set_parsed_output_ (fresh_object "spmf-output.txt" 0) [])
      /\ parsed_output_
           (snd (parse_output (world_with_output "")
                              (fresh_object "spmf-output.txt" 0))) = []).
Proof.
  split; [reflexivity |].
  apply (C7_empty_artifact_decodes_to_no_pattern
           (world_with_output "") (fresh_object "spmf-output.txt" 0)).
  reflexivity.
Defined.

(** ** Encoder *)

Lemma read_file_write_file (fs : list (string * string)) (path c : string) :
  read_file (write_file fs path c) path = Some c.
Proof. unfold write_file. simpl. now rewrite String.eqb_refl. Qed.

(** The temporary file holds the text written, under the name returned. *)
Lemma write_temp_input_file_content (input_text file_ending : string)
  (w : world) :
  exists w',
    write_temp_input_file input_text file_ending w
      = (Ok (tmp_name (tmp_counter w) ++ file_ending), w')
    /\ read_file (files w') (tmp_name (tmp_counter w) ++ file_ending)
       = Some input_text
    /\ module_dir w' = module_dir w.
Proof.
  unfold write_temp_input_file. eexists. split; [reflexivity |].
  split; [| reflexivity].
  cbn [files]. unfold rename_file. rewrite read_file_write_file.
  cbn [read_file]. now rewrite String.eqb_refl.
Qed.

(** C5: in normal mode the collection [[[1,2],[3]], [[1],[3]]] is written
    as the two lines ["1 2 -1 3 -1 -2"] and ["1 -1 3 -1 -2"], each ended by
    a newline, in that order. *)
Theorem C5_normal_encoding_example (w : world) :
  exists path w',
    handle_input (InSequences [[[1; 2]; [3]]; [[1]; [3]]]%Z) "" "normal" w
      = (Ok path, w')
    /\ read_file (files w') path
       = Some (("1 2 -1 3 -1 -2" ++ nl) ++ ("1 -1 3 -1 -2" ++ nl))
    /\ Py.readlines (("1 2 -1 3 -1 -2" ++ nl) ++ ("1 -1 3 -1 -2" ++ nl))
       = ["1 2 -1 3 -1 -2" ++ nl; "1 -1 3 -1 -2" ++ nl].
Proof.
  destruct (write_temp_input_file_content
              (encode_normal [[[1; 2]; [3]]; [[1]; [3]]]%Z) ".txt" w)
    as (w' & Hw & Hr & _).
  exists (tmp_name (tmp_counter w) ++ ".txt"), w'.
  split; [exact Hw |]. split; [exact Hr | reflexivity].
Qed.

(** C10: with an [input_type] other than ["normal"] and ["text"] and no
    file name, a [str] input makes [handle_input] fail on the unassigned
    local [file_ending], whereas a list reaches the final [TypeError]. *)
Theorem C10_unknown_input_type (text input_type : string)
  (db : list (list (list Z))) (l : list string) (w : world) :
  input_type <> "normal" ->
  input_type <> "text" ->
  handle_input (InStr text) "" input_type w
    = (Raise (UnboundLocalError "file_ending"), w)
  /\ handle_input (InSequences db) "" input_type w
     = (Raise (TypeError no_input_message), w)
  /\ handle_input (InTexts l) "" input_type w
     = (Raise (TypeError no_input_message), w).
Proof.
  intros Hn Ht. apply String.eqb_neq in Hn, Ht.
  unfold handle_input. cbn [Py.is_empty negb]. rewrite Hn, Ht.
  repeat split.
Qed.

Lemma C10_unknown_input_type_witness :
  "csv" <> "normal" /\ "csv" <> "text"
  /\ (handle_input (InStr "1 -1 -2") "" "csv" world_without_engine
        = (Raise (UnboundLocalError "file_ending"), world_without_engine)
      /\ handle_input (InSequences [[[1]]]%Z) "" "csv" world_without_engine
         = (Raise (TypeError no_input_message), world_without_engine)
      /\ handle_input (InTexts ["a b"]) "" "csv" world_without_engine
         = (Raise (TypeError no_input_message), world_without_engine)).
Proof.
  split; [discriminate |]. split; [discriminate |].
  apply (C10_unknown_input_type "1 -1 -2" "csv" [[[1]]]%Z ["a b"]
           world_without_engine); discriminate.
Defined.

(** ** Constructor *)

(** [handle_input] never raises [FileNotFoundError]. *)
Lemma handle_input_not_FileNotFoundError (input_direct : py_input)
  (input_filename input_type : string) (w w' : world) (e : exn) (msg : string) :
  handle_input input_direct input_filename input_type w = (Raise e, w') ->
  e <> FileNotFoundError msg.
Proof.
  unfold handle_input, write_temp_input_file.
  destruct (negb (Py.is_empty input_filename)); [discriminate |].
  destruct input_direct as [| text | db | l |];
    try (intros [= <- _]; discriminate);
    destruct (String.eqb input_type "normal"); try discriminate;
    destruct (String.eqb input_type "text"); try discriminate;
    try (intros [= <- _]; discriminate).
  destruct db; [discriminate | intros [= <- _]; discriminate].
Qed.

(** C8: the constructor raises [FileNotFoundError] exactly when
    [spmf.jar] is a file neither of the directory given nor of the
    directory of the module, and it then leaves the world as it found it:
    nothing has been encoded, no temporary file exists. *)
Theorem C8_missing_engine (algorithm_name : string) (input_direct : py_input)
  (input_type input_filename output_filename : string)
  (arguments : list py_arg) (spmf_bin_location_dir : string) (memory : Z)
  (w : world) :
  ((exists msg,
      fst (__init__ algorithm_name input_direct input_type input_filename
             output_filename arguments spmf_bin_location_dir memory w)
      = Raise (FileNotFoundError msg))
   <->
   (isfile w (Py.path_join spmf_bin_location_dir "spmf.jar") = false
    /\ isfile w (Py.path_join (module_dir w) "spmf.jar") = false))
  /\
  ((isfile w (Py.path_join spmf_bin_location_dir "spmf.jar") = false
    /\ isfile w (Py.path_join (module_dir w) "spmf.jar") = false) ->
   __init__ algorithm_name input_direct input_type input_filename
     output_filename arguments spmf_bin_location_dir memory w
   = (Raise (FileNotFoundError (not_found_message "spmf.jar")), w)).
Proof.
  assert (Hmiss :
    isfile w (Py.path_join spmf_bin_location_dir "spmf.jar") = false
    /\ isfile w (Py.path_join (module_dir w) "spmf.jar") = false ->
    __init__ algorithm_name input_direct input_type input_filename
      output_filename arguments spmf_bin_location_dir memory w
    = (Raise (FileNotFoundError (not_found_message "spmf.jar")), w)).
  { intros [H1 H2]. unfold __init__. rewrite H1. cbn [negb]. rewrite H2.
    reflexivity. }
  split; [| exact Hmiss]. split.
  - intros [msg H]. unfold __init__ in H.
    destruct (isfile w (Py.path_join spmf_bin_location_dir "spmf.jar")) eqn:E1;
      cbn [negb] in H.
    + exfalso.
      destruct (handle_input input_direct input_filename input_type w)
        as [[input | e] w'] eqn:Eh; cbn in H; [discriminate H |].
      injection H as ->.
      exact (handle_input_not_FileNotFoundError _ _ _ _ _ _ msg Eh eq_refl).
    + destruct (isfile w (Py.path_join (module_dir w) "spmf.jar")) eqn:E2;
        cbn [negb] in H.
      * exfalso.
        destruct (handle_input input_direct input_filename input_type w)
          as [[input | e] w'] eqn:Eh; cbn in H; [discriminate H |].
        injection H as ->.
        exact (handle_input_not_FileNotFoundError _ _ _ _ _ _ msg Eh eq_refl).
      * split; reflexivity.
  - intros H. rewrite (Hmiss H). eexists. reflexivity.
Qed.

(** ** Engine invocation *)

(** The command is the runtime, the memory flag unless the budget is [0],
    then the fixed part and the extra arguments. *)
Lemma subprocess_arguments_shape (self : Spmf) :
  subprocess_arguments self
  = ("java"
     :: (if Z.eqb (memory_ self) 0 then []
         else [("-Xmx" ++ Py.str (memory_ self) ++ "m")%string])
     ++ ["-jar"; Py.path_join (executable_dir_ self) (executable_ self);
         "run"; agorithm_name_ self; input_ self; output_ self]
     ++ arguments_ self)%list.
Proof.
  unfold subprocess_arguments. destruct (Z.eqb (memory_ self) 0); reflexivity.
Qed.

(** C9, as stated, fails: with a budget of [-1] the flag is in the
    command although the budget is not positive. *)
Lemma C9_flag_present_for_negative_budget :
  subprocess_arguments (fresh_object "spmf-output.txt" (-1))
    = ["java"; "-Xmx-1m"; "-jar"; "./spmf.jar"; "run"; "PrefixSpan";
       "input.txt"; "spmf-output.txt"; "50%"]
  /\ ~ (0 < memory_ (fresh_object "spmf-output.txt" (-1)))%Z.
Proof. split; [vm_compute; reflexivity | cbn; lia]. Qed.

(** C9, amended: for an object built by the constructor the command is
    [java], the flag [-Xmx<N>m] exactly when the budget [N] is not [0]
    (so for every positive budget, and not for [0]), then [-jar], the path
    of [spmf.jar] in the directory where it was found, [run], the algorithm
    name, the input path, the output path and the extra arguments, each
    turned into text, in the caller's order. *)
Theorem C9_command_line (algorithm_name : string) (input_direct : py_input)
  (input_type input_filename output_filename : string)
  (arguments : list py_arg) (spmf_bin_location_dir : string) (memory : Z)
  (w w' : world) (self : Spmf) :
  __init__ algorithm_name input_direct input_type input_filename
    output_filename arguments spmf_bin_location_dir memory w = (Ok self, w') ->
  exists dir input,
    (dir = spmf_bin_location_dir \/ dir = module_dir w)
    /\ isfile w (Py.path_join dir "spmf.jar") = true
    /\ handle_input input_direct input_filename input_type w = (Ok input, w')
    /\ subprocess_arguments self
       = ("java"
          :: (if Z.eqb memory 0 then []
              else [("-Xmx" ++ Py.str memory ++ "m")%string])
          ++ ["-jar"; Py.path_join dir "spmf.jar"; "run"; algorithm_name;
              input; output_filename]
          ++ map str_of_arg arguments)%list.
Proof.
  intros H. unfold __init__ in H.
  destruct (isfile w (Py.path_join spmf_bin_location_dir "spmf.jar")) eqn:E1;
    cbn [negb] in H.
  - destruct (handle_input input_direct input_filename input_type w)
      as [[input | e] w1] eqn:Eh; [| discriminate H].
    injection H as <- <-.
    exists spmf_bin_location_dir, input.
    rewrite subprocess_arguments_shape. cbn.
    repeat split; auto.
  - destruct (isfile w (Py.path_join (module_dir w) "spmf.jar")) eqn:E2;
      cbn [negb] in H; [| discriminate H].
    destruct (handle_input input_direct input_filename input_type w)
      as [[input | e] w1] eqn:Eh; [| discriminate H].
    injection H as <- <-.
    exists (module_dir w), input.
    rewrite subprocess_arguments_shape. cbn.
    repeat split; auto.
Qed.

Lemma C9_command_line_witness :
  __init__ "PrefixSpan" InNone "normal" "data.txt" "spmf-output.txt"
    [ArgStr "50%"; ArgInt 3] "." 512 (world_with_output "")
  = (Ok {| executable_dir_ := ".";
           executable_ := "spmf.jar";
           is_exist_executable_ := true;
           agorithm_name_ := "PrefixSpan";
           input_ := "data.txt";
           output_ := "spmf-output.txt";
           arguments_ := ["50%"; "3"];
           parsed_output_ := [];
           df_ := None;
           memory_ := 512 |}, world_with_output "")
  /\ exists dir input,
       (dir = "." \/ dir = module_dir (world_with_output ""))
       /\ isfile (world_with_output "") (Py.path_join dir "spmf.jar") = true
       /\ handle_input InNone "data.txt" "normal" (world_with_output "")
          = (Ok input, world_with_output "")
       /\ subprocess_arguments
            {| executable_dir_ := ".";
               executable_ := "spmf.jar";
               is_exist_executable_ := true;
               agorithm_name_ := "PrefixSpan";
               input_ := "data.txt";
               output_ := "spmf-output.txt";
               arguments_ := ["50%"; "3"];
               parsed_output_ := [];
               df_ := None;
               memory_ := 512 |}
          = ("java"
             :: (if Z.eqb 512 0 then []
                 else [("-Xmx" ++ Py.str 512 ++ "m")%string])
             ++ ["-jar"; Py.path_join dir "spmf.jar"; "run"; "PrefixSpan";
                 input; "spmf-output.txt"]
             ++ map str_of_arg [ArgStr "50%"; ArgInt 3])%list.
Proof.
  split; [vm_compute; reflexivity |].
  apply (C9_command_line "PrefixSpan" InNone "normal" "data.txt"
           "spmf-output.txt" [ArgStr "50%"; ArgInt 3] "." 512
           (world_with_output "") (world_with_output "")).
  vm_compute; reflexivity.
Defined.

(** ** Round trip of the normal encoding *)

Lemma append_assoc (a b c : string) : (a ++ b) ++ c = a ++ (b ++ c).
Proof. induction a as [| x a IH]; simpl; [reflexivity | now rewrite IH]. Qed.

Lemma append_nil_r (a : string) : a ++ "" = a.
Proof. induction a as [| x a IH]; simpl; [reflexivity | now rewrite IH]. Qed.

Lemma render_app (l1 l2 : list (string * ascii)) :
  render (l1 ++ l2)%list = render l1 ++ render l2.
Proof.
  induction l1 as [| [t c] l1 IH]; simpl; [reflexivity |].
  rewrite IH, append_assoc. reflexivity.
Qed.

(** *** The loops build the rendering of the token list *)

Lemma encode_items_render (item_set : list Z) (acc : string) :
  fold_left (fun acc item => acc ++ (Py.str item ++ " ")) item_set acc
  = acc ++ render (map (fun i => (Py.str i, " "%char)) item_set).
Proof.
  revert acc. induction item_set as [| i item_set IH]; intros acc; simpl.
  - now rewrite append_nil_r.
  - rewrite IH, !append_assoc. reflexivity.
Qed.

Lemma encode_item_set_render (item_set : list Z) (acc : string) :
  encode_item_set acc item_set = acc ++ render (item_set_render item_set).
Proof.
  unfold encode_item_set, item_set_render.
  rewrite encode_items_render, render_app, !append_assoc. reflexivity.
Qed.

Lemma encode_item_sets_render (seq : list (list Z)) (acc : string) :
  fold_left encode_item_set seq acc
  = acc ++ render (flat_map item_set_render seq).
Proof.
  revert acc. induction seq as [| s seq IH]; intros acc; simpl.
  - now rewrite append_nil_r.
  - rewrite IH, encode_item_set_render, render_app, append_assoc. reflexivity.
Qed.

Lemma encode_seq_render (seq : list (list Z)) (acc : string) :
  encode_seq acc seq = acc ++ render (seq_render seq).
Proof.
  unfold encode_seq, seq_render.
  rewrite encode_item_sets_render, render_app, !append_assoc. reflexivity.
Qed.

Lemma encode_seqs_render (db : list (list (list Z))) (acc : string) :
  fold_left encode_seq db acc = acc ++ render (db_render db).
Proof.
  revert acc. induction db as [| s db IH]; intros acc; simpl.
  - now rewrite append_nil_r.
  - rewrite IH, encode_seq_render. unfold db_render. simpl.
    rewrite render_app, append_assoc. reflexivity.
Qed.

Lemma encode_normal_render (db : list (list (list Z))) :
  encode_normal db = render (db_render db).
Proof. unfold encode_normal. now rewrite encode_seqs_render. Qed.

Lemma db_render_tokens (db : list (list (list Z))) :
  map fst (db_render db) = map Py.str (db_tokens db).
Proof.
  unfold db_render, db_tokens.
  induction db as [| seq db IH]; simpl; [reflexivity |].
  rewrite !map_app, IH. f_equal.
  unfold seq_render, seq_tokens. rewrite !map_app. simpl. f_equal.
  induction seq as [| s seq IHs]; simpl; [reflexivity |].
  rewrite !map_app, IHs. f_equal.
  unfold item_set_render, item_set_tokens. rewrite !map_app, map_map. simpl.
  reflexivity.
Qed.

(** *** Cutting a rendering into words gives the tokens back *)

Lemma words_go_token (t rest cur : string) :
  all_chars (fun c => negb (Py.isspace c)) t = true ->
  words_go cur (t ++ rest) = words_go (cur ++ t) rest.
Proof.
  revert cur. induction t as [| c t IH]; intros cur H; simpl in *.
  - now rewrite append_nil_r.
  - apply andb_true_iff in H. destruct H as [Hc Ht].
    apply negb_true_iff in Hc. rewrite Hc, (IH _ Ht), append_assoc.
    reflexivity.
Qed.

Lemma words_go_token_sep (t rest : string) (c : ascii) :
  is_token t -> Py.isspace c = true ->
  words_go "" (t ++ String c rest) = t :: words_go "" rest.
Proof.
  intros [Hne Ht] Hc. rewrite (words_go_token _ _ _ Ht). simpl.
  rewrite Hc. destruct t; [contradiction | reflexivity].
Qed.

Lemma words_render (l : list (string * ascii)) :
  Forall (fun e => is_token (fst e) /\ Py.isspace (snd e) = true) l ->
  words (render l) = map fst l.
Proof.
  unfold words. induction 1 as [| [t c] l [Ht Hc] _ IH]; simpl.
  - reflexivity.
  - simpl in Ht, Hc. rewrite (words_go_token_sep _ _ _ Ht Hc), IH.
    reflexivity.
Qed.

(** *** [int] reads back what [str] prints *)

Lemma isdigit_not_space (c : ascii) :
  Py.isdigit c = true -> Py.isspace c = false.
Proof.
  unfold Py.isdigit, Py.isspace. cbv zeta.
  generalize (nat_of_ascii c) as n. intros n H.
  apply andb_true_iff in H. destruct H as [H1 H2].
  apply Nat.leb_le in H1, H2.
  repeat rewrite orb_false_iff. repeat split.
  - apply andb_false_iff. right. apply Nat.leb_gt. lia.
  - apply andb_false_iff. right. apply Nat.leb_gt. lia.
  - apply Nat.eqb_neq. lia.
  - apply Nat.eqb_neq. lia.
Qed.

Lemma isdigit_not_sign (c : ascii) :
  Py.isdigit c = true ->
  Ascii.eqb c "-" = false /\ Ascii.eqb c "+" = false
  /\ Ascii.eqb c "_" = false.
Proof.
  intros H. repeat split;
    (destruct (Ascii.eqb_spec c "-"), (Ascii.eqb_spec c "+"),
       (Ascii.eqb_spec c "_"); subst; try reflexivity;
     vm_compute in H; discriminate H).
Qed.

Lemma digits_no_space (s : string) :
  all_chars Py.isdigit s = true ->
  all_chars (fun c => negb (Py.isspace c)) s = true.
Proof.
  induction s as [| c s IH]; simpl; [reflexivity |].
  intros H. apply andb_true_iff in H. destruct H as [Hc Hs].
  rewrite (isdigit_not_space _ Hc), (IH Hs). reflexivity.
Qed.

Lemma uint_digits (d : Decimal.uint) :
  all_chars Py.isdigit (NilEmpty.string_of_uint d) = true.
Proof. induction d; simpl; [reflexivity | assumption ..]. Qed.

Lemma uint_nonempty (d : Decimal.uint) :
  d <> Decimal.Nil -> NilEmpty.string_of_uint d <> "".
Proof. destruct d; simpl; [contradiction | discriminate ..]. Qed.

Lemma NilZero_uint_nonnil (d : Decimal.uint) :
  d <> Decimal.Nil -> NilZero.string_of_uint d = NilEmpty.string_of_uint d.
Proof. destruct d; [contradiction | reflexivity ..]. Qed.

Lemma lstrip_no_space (s : string) :
  all_chars (fun c => negb (Py.isspace c)) s = true -> Py.lstrip s = s.
Proof.
  destruct s as [| c s]; simpl; [reflexivity |].
  intros H. apply andb_true_iff in H. destruct H as [Hc _].
  apply negb_true_iff in Hc. now rewrite Hc.
Qed.

Lemma rstrip_no_space (s : string) :
  all_chars (fun c => negb (Py.isspace c)) s = true -> Py.rstrip s = s.
Proof.
  induction s as [| c s IH]; simpl; [reflexivity |].
  intros H. apply andb_true_iff in H. destruct H as [Hc Hs].
  apply negb_true_iff in Hc. rewrite (IH Hs), Hc.
  destruct s; reflexivity.
Qed.

Lemma strip_no_space (s : string) :
  all_chars (fun c => negb (Py.isspace c)) s = true -> Py.strip s = s.
Proof.
  intros H. unfold Py.strip. rewrite (lstrip_no_space _ H).
  exact (rstrip_no_space _ H).
Qed.

Lemma literal_digits_plain (s : string) :
  all_chars Py.isdigit s = true ->
  Py.literal_digits true s = Some s
  /\ (s <> "" -> Py.literal_digits false s = Some s).
Proof.
  induction s as [| c s IH]; simpl.
  - intros _. split; [reflexivity | intros H; now destruct H].
  - intros H. apply andb_true_iff in H. destruct H as [Hc Hs].
    rewrite Hc. destruct (IH Hs) as [IH1 _]. rewrite IH1. simpl.
    split; [reflexivity | intros _; reflexivity].
Qed.

Lemma unsigned_literal_uint (d : Decimal.uint) :
  d <> Decimal.Nil ->
  Py.unsigned_literal (NilEmpty.string_of_uint d) = Some (Z.of_uint d).
Proof.
  intros Hd. unfold Py.unsigned_literal.
  destruct (literal_digits_plain _ (uint_digits d)) as [_ H].
  rewrite (H (uint_nonempty _ Hd)), NilEmpty.usu. reflexivity.
Qed.

Lemma of_uint_to_uint (p : positive) : Z.of_uint (Pos.to_uint p) = Z.pos p.
Proof. exact (DecimalZ.of_to (Z.pos p)). Qed.

Lemma str_pos (p : positive) :
  Py.str (Z.pos p) = NilEmpty.string_of_uint (Pos.to_uint p).
Proof.
  unfold Py.str. simpl.
  apply NilZero_uint_nonnil, DecimalPos.Unsigned.to_uint_nonnil.
Qed.

Lemma str_neg (p : positive) :
  Py.str (Z.neg p) = String "-" (NilEmpty.string_of_uint (Pos.to_uint p)).
Proof.
  unfold Py.str. simpl. f_equal.
  apply NilZero_uint_nonnil, DecimalPos.Unsigned.to_uint_nonnil.
Qed.

(** What [str] prints is one token. *)
Lemma str_is_token (z : Z) : is_token (Py.str z).
Proof.
  destruct z as [| p | p].
  - split; [discriminate | reflexivity].
  - rewrite str_pos. split.
    + apply uint_nonempty, DecimalPos.Unsigned.to_uint_nonnil.
    + apply digits_no_space, uint_digits.
  - rewrite str_neg. split; [discriminate |].
    simpl. apply digits_no_space, uint_digits.
Qed.

Lemma int_space_isspace (c : ascii) :
  Py.int_space c = true -> Py.isspace c = true.
Proof.
  intros H. destruct c as [[] [] [] [] [] [] [] []];
    first [reflexivity | vm_compute in H; discriminate H].
Qed.

Lemma lskip_none (p : ascii -> bool) (s : string) :
  all_chars (fun c => negb (p c)) s = true -> Py.lskip p s = s.
Proof.
  destruct s as [| c s]; simpl; [reflexivity |].
  intros H. apply andb_true_iff in H. destruct H as [Hc _].
  apply negb_true_iff in Hc. now rewrite Hc.
Qed.

Lemma rskip_none (p : ascii -> bool) (s : string) :
  all_chars (fun c => negb (p c)) s = true -> Py.rskip p s = s.
Proof.
  induction s as [| c s IH]; simpl; [reflexivity |].
  intros H. apply andb_true_iff in H. destruct H as [Hc Hs].
  apply negb_true_iff in Hc. rewrite (IH Hs), Hc.
  destruct s; reflexivity.
Qed.

Lemma no_space_no_int_space (s : string) :
  all_chars (fun c => negb (Py.isspace c)) s = true ->
  all_chars (fun c => negb (Py.int_space c)) s = true.
Proof.
  induction s as [| c s IH]; simpl; [reflexivity |].
  intros H. apply andb_true_iff in H. destruct H as [Hc Hs].
  rewrite (IH Hs), andb_true_r. apply negb_true_iff in Hc.
  destruct (Py.int_space c) eqn:E; [| reflexivity].
  now rewrite (int_space_isspace _ E) in Hc.
Qed.

(** [int] leaves text without whitespace as it is before reading it. *)
Lemma int_skip_no_space (s : string) :
  all_chars (fun c => negb (Py.isspace c)) s = true ->
  Py.rskip Py.int_space (Py.lskip Py.int_space s) = s.
Proof.
  intros H. apply no_space_no_int_space in H.
  now rewrite (lskip_none _ _ H), (rskip_none _ _ H).
Qed.

Lemma int_str (z : Z) : Py.int (Py.str z) = Ok z.
Proof.
  unfold Py.int. rewrite (int_skip_no_space _ (proj2 (str_is_token z))).
  destruct z as [| p | p].
  - reflexivity.
  - rewrite str_pos.
    pose proof (uint_digits (Pos.to_uint p)) as Hd.
    pose proof (unsigned_literal_uint (Pos.to_uint p)
                  (DecimalPos.Unsigned.to_uint_nonnil p)) as Hu.
    destruct (NilEmpty.string_of_uint (Pos.to_uint p)) as [| c s] eqn:E.
    + exfalso. revert E.
      apply uint_nonempty, DecimalPos.Unsigned.to_uint_nonnil.
    + simpl in Hd. apply andb_true_iff in Hd. destruct Hd as [Hc _].
      destruct (isdigit_not_sign _ Hc) as (-> & -> & _).
      rewrite Hu, of_uint_to_uint. reflexivity.
  - rewrite str_neg. simpl.
    rewrite (unsigned_literal_uint _ (DecimalPos.Unsigned.to_uint_nonnil p)).
    simpl. rewrite of_uint_to_uint. reflexivity.
Qed.

Lemma map_int_str (zs : list Z) :
  map_result Py.int (map Py.str zs) = Ok zs.
Proof.
  induction zs as [| z zs IH]; simpl; [reflexivity |].
  rewrite int_str. simpl. rewrite IH. reflexivity.
Qed.

Lemma db_render_wf (db : list (list (list Z))) :
  Forall (fun e => is_token (fst e) /\ Py.isspace (snd e) = true)
         (db_render db).
Proof.
  unfold db_render. apply Forall_flat_map, Forall_forall. intros seq _.
  unfold seq_render. apply Forall_app. split.
  - apply Forall_flat_map, Forall_forall. intros s _.
    unfold item_set_render. apply Forall_app. split.
    + apply Forall_map, Forall_forall. intros i _. simpl.
      split; [apply str_is_token | reflexivity].
    + constructor; [| constructor]. simpl.
      split; [apply str_is_token | reflexivity].
  - constructor; [| constructor]. simpl.
    split; [apply str_is_token | reflexivity].
Qed.

(** The words of an encoded collection, read as integers, are its tokens. *)
Lemma words_encode_normal (db : list (list (list Z))) :
  map_result Py.int (words (encode_normal db)) = Ok (db_tokens db).
Proof.
  rewrite encode_normal_render, (words_render _ (db_render_wf db)),
    db_render_tokens.
  apply map_int_str.
Qed.

(** *** Regrouping the tokens *)

Lemma regroup_items (items rest : list Z) (seqs : list (list (list Z)))
  (sets : list (list Z)) (cur : list Z) :
  Forall is_item items ->
  regroup (items ++ rest)%list seqs sets cur
  = regroup rest seqs sets (cur ++ items)%list.
Proof.
  intros H. revert cur. induction H as [| i items [H1 H2] _ IH]; intros cur.
  - simpl. now rewrite app_nil_r.
  - simpl. apply Z.eqb_neq in H1, H2. rewrite H1, H2, IH, <- app_assoc.
    reflexivity.
Qed.

Lemma regroup_item_sets (seq : list (list Z)) (rest : list Z)
  (seqs : list (list (list Z))) (sets : list (list Z)) :
  Forall (Forall is_item) seq ->
  regroup (flat_map item_set_tokens seq ++ rest)%list seqs sets []
  = regroup rest seqs (sets ++ seq)%list [].
Proof.
  intros H. revert sets. induction H as [| s seq Hs _ IH]; intros sets.
  - simpl. now rewrite app_nil_r.
  - simpl. unfold item_set_tokens at 1. rewrite <- !app_assoc.
    rewrite (regroup_items _ _ _ _ _ Hs). simpl.
    rewrite IH, <- app_assoc. reflexivity.
Qed.

Lemma regroup_db (db seqs : list (list (list Z))) :
  sentinel_free db ->
  regroup (db_tokens db) seqs [] [] = Some (seqs ++ db)%list.
Proof.
  intros H. revert seqs. induction H as [| seq db Hs _ IH]; intros seqs.
  - simpl. now rewrite app_nil_r.
  - unfold db_tokens. simpl. unfold seq_tokens at 1. rewrite <- !app_assoc.
    rewrite (regroup_item_sets _ _ _ _ Hs). simpl.
    fold (db_tokens db). rewrite IH, <- app_assoc. reflexivity.
Qed.

(** C4, as stated, fails: the collection [[[-1]]] is encoded as
    ["-1 -1 -2"] and a newline, which is read back as one sequence of two
    empty itemsets. *)
Lemma C4_sentinel_item_not_recovered :
  encode_normal [[[-1]]]%Z = "-1 -1 -2" ++ nl
  /\ spec_retokenize (encode_normal [[[-1]]]%Z) = Some [[[]; []]]
  /\ spec_retokenize (encode_normal [[[-1]]]%Z) <> Some [[[-1]]]%Z.
Proof.
  split; [reflexivity |]. split; [vm_compute; reflexivity |].
  vm_compute. discriminate.
Qed.

(** C4, amended: for every list of sequences of itemsets of integers
    none of which is [-1] or [-2], the text written by the normal encoding,
    cut at whitespace and regrouped at the tokens [-1] and [-2], is the
    list itself. *)
Theorem C4_normal_encoding_round_trip (db : list (list (list Z)))
  (w : world) :
  sentinel_free db ->
  exists path w' text,
    handle_input (InSequences db) "" "normal" w = (Ok path, w')
    /\ read_file (files w') path = Some text
    /\ text = encode_normal db
    /\ spec_retokenize text = Some db.
Proof.
  intros H.
  destruct (write_temp_input_file_content (encode_normal db) ".txt" w)
    as (w' & Hw & Hr & _).
  exists (tmp_name (tmp_counter w) ++ ".txt"), w', (encode_normal db).
  split; [exact Hw |]. split; [exact Hr |]. split; [reflexivity |].
  unfold spec_retokenize. rewrite words_encode_normal.
  exact (regroup_db db [] H).
Qed.

Lemma C4_normal_encoding_round_trip_witness :
  sentinel_free [[[1; 2]; [3]]; [[1]; [3]]]%Z
  /\ exists path w' text,
       handle_input (InSequences [[[1; 2]; [3]]; [[1]; [3]]]%Z) "" "normal"
         world_without_engine = (Ok path, w')
       /\ read_file (files w') path = Some text
       /\ text = encode_normal [[[1; 2]; [3]]; [[1]; [3]]]%Z
       /\ spec_retokenize text = Some [[[1; 2]; [3]]; [[1]; [3]]]%Z.
Proof.
  assert (H : sentinel_free [[[1; 2]; [3]]; [[1]; [3]]]%Z)
    by (repeat constructor; lia).
  split; [exact H |].
  exact (C4_normal_encoding_round_trip [[[1; 2]; [3]]; [[1]; [3]]]%Z
           world_without_engine H).
Defined.

(* ================================================================== *)
(** * Further properties *)

(** ** Strings *)

Lemma length_append (a b : string) :
  String.length (a ++ b) = String.length a + String.length b.
Proof. induction a as [| x a IH]; simpl; [reflexivity | now rewrite IH]. Qed.

Lemma all_chars_app (p : ascii -> bool) (a b : string) :
  all_chars p (a ++ b) = all_chars p a && all_chars p b.
Proof.
  induction a as [| x a IH]; simpl; [reflexivity |].
  now rewrite IH, andb_assoc.
Qed.

Lemma all_chars_impl (p q : ascii -> bool) (s : string) :
  (forall c, p c = true -> q c = true) ->
  all_chars p s = true -> all_chars q s = true.
Proof.
  intros Hpq. induction s as [| c s IH]; simpl; [reflexivity |].
  intros H. apply andb_true_iff in H. destruct H as [Hc Hs].
  now rewrite (Hpq _ Hc), (IH Hs).
Qed.

Lemma substring_prefix (a t : string) :
  substring 0 (String.length a) (a ++ t) = a.
Proof.
  induction a as [| x a IH]; simpl.
  - destruct t; reflexivity.
  - now rewrite IH.
Qed.

Lemma prefix_app (a t : string) : prefix a (a ++ t) = true.
Proof.
  induction a as [| x a IH]; simpl; [destruct t; reflexivity |].
  destruct (ascii_dec x x) as [_ | N]; [exact IH | now destruct N].
Qed.

Lemma prefix_split (a s : string) :
  prefix a s = true -> exists t, s = a ++ t.
Proof.
  revert s. induction a as [| x a IH]; intros s H.
  - exists s. reflexivity.
  - destruct s as [| y s]; simpl in H; [discriminate H |].
    destruct (ascii_dec x y) as [-> | _]; [| discriminate H].
    destruct (IH _ H) as [t ->]. exists t. reflexivity.
Qed.

Lemma contains_cons (sub : string) (c : ascii) (s : string) :
  Py.contains sub (String c s)
  = prefix sub (String c s) || Py.contains sub s.
Proof. reflexivity. Qed.

(** [sub in s] holds exactly when [s] has [sub] somewhere inside. *)
Lemma contains_spec (sub s : string) :
  Py.contains sub s = true <-> exists a b, s = a ++ sub ++ b.
Proof.
  split.
  - induction s as [| c s IH]; intros H.
    + destruct sub; [| discriminate H]. exists "", "". reflexivity.
    + rewrite contains_cons in H.
      apply orb_true_iff in H. destruct H as [H | H].
      * destruct (prefix_split _ _ H) as [t ->]. exists "", t. reflexivity.
      * destruct (IH H) as (a & b & ->). exists (String c a), b. reflexivity.
  - intros (a & b & ->). induction a as [| c a IH].
    + change ("" ++ sub ++ b) with (sub ++ b).
      destruct (sub ++ b) as [| c t] eqn:E.
      * destruct sub; [reflexivity | discriminate E].
      * rewrite contains_cons, <- E, prefix_app. reflexivity.
    + change (String c a ++ sub ++ b) with (String c (a ++ sub ++ b)).
      rewrite contains_cons, IH. apply orb_true_r.
Qed.

(** ** The matcher on lines of the output format *)

Lemma run_Plus (r : Re.regex) (i : nat) (s : string) (g : Re.captures)
  (k : Re.cont) :
  Re.run (Re.Plus r) i s g k = plus_loop r k (S (String.length s)) i s g.
Proof. reflexivity. Qed.

Lemma run_Group (n : nat) (r : Re.regex) (i : nat) (s : string)
  (g : Re.captures) (k : Re.cont) :
  Re.run (Re.Group n r) i s g k
  = Re.run r i s g
      (fun i' s' g' => k i' s' ((n, substring 0 (i' - i) s) :: g')).
Proof. reflexivity. Qed.

Lemma run_Cat (r1 r2 : Re.regex) (i : nat) (s : string) (g : Re.captures)
  (k : Re.cont) :
  Re.run (Re.Cat r1 r2) i s g k
  = Re.run r1 i s g (fun i' s' g' => Re.run r2 i' s' g' k).
Proof. reflexivity. Qed.

Lemma run_Opt (r : Re.regex) (i : nat) (s : string) (g : Re.captures)
  (k : Re.cont) :
  Re.run (Re.Opt r) i s g k = Re.or_else (Re.run r i s g k) (k i s g).
Proof. reflexivity. Qed.

(** A literal consumes itself and nothing else. *)
Lemma run_Lit_app (l s : string) (i : nat) (g : Re.captures) (k : Re.cont) :
  Re.run (Re.Lit l) i (l ++ s) g k = k (i + String.length l) s g.
Proof.
  revert i. induction l as [| c l IH]; intros i; simpl.
  - now rewrite Nat.add_0_r.
  - rewrite Ascii.eqb_refl, IH. f_equal. lia.
Qed.

Lemma run_Lit_none (l s : string) (i : nat) (g : Re.captures) (k : Re.cont) :
  prefix l s = false -> Re.run (Re.Lit l) i s g k = None.
Proof.
  revert i s. induction l as [| c l IH]; intros i s H.
  - destruct s; discriminate H.
  - destruct s as [| c' s]; simpl in *; [reflexivity |].
    destruct (ascii_dec c c') as [-> | N].
    + rewrite Ascii.eqb_refl. now apply IH.
    + apply Ascii.eqb_neq in N. now rewrite N.
Qed.

(** The greedy loop over a class of characters: [a+] takes the longest run
    it can and gives characters back until the continuation accepts. *)
Section CharClass.

Variable r : Re.regex.
Variable p : ascii -> bool.
Hypothesis run_class : forall i s g k,
  Re.run r i s g k
  = match s with
    | String c s' => if p c then k (S i) s' g else None
    | EmptyString => None
    end.

Lemma plus_loop_none (k : Re.cont) (t : string) (fuel i : nat)
  (g : Re.captures) :
  (forall u t', t = u ++ t' -> u <> "" -> all_chars p u = true ->
                k (i + String.length u) t' g = None) ->
  plus_loop r k fuel i t g = None.
Proof.
  revert fuel i. induction t as [| c t IH]; intros fuel i H.
  - destruct fuel; simpl; [reflexivity | now rewrite run_class].
  - destruct fuel; simpl; [reflexivity |]. rewrite run_class.
    destruct (p c) eqn:Hc; [| reflexivity].
    assert (Hlt : Nat.ltb i (S i) = true) by (apply Nat.ltb_lt; lia).
    rewrite Hlt.
    change ((fix loop (fuel0 i0 : nat) (s : string) (g0 : Re.captures)
               {struct fuel0} : option Re.captures :=
               match fuel0 with
               | 0 => None
               | S fuel' =>
                   Re.run r i0 s g0
                     (fun (i' : nat) (s' : string) (g' : Re.captures) =>
                        Re.or_else
                          (if Nat.ltb i0 i' then loop fuel' i' s' g' else None)
                          (k i' s' g'))
               end) fuel (S i) t g)
      with (plus_loop r k fuel (S i) t g).
    rewrite IH.
    + simpl. specialize (H (String c "") t eq_refl).
      simpl in H. rewrite Hc in H. replace (i + 1) with (S i) in H by lia.
      apply H; [discriminate | reflexivity].
    + intros u t' -> Hu Hp.
      specialize (H (String c u) t' eq_refl). simpl in H. rewrite Hc, Hp in H.
      replace (i + S (String.length u)) with (S i + String.length u) in H
        by lia.
      apply H; [discriminate | reflexivity].
Qed.

Lemma plus_loop_some (k : Re.cont) (a t : string) (fuel i : nat)
  (g x : Re.captures) :
  a <> "" -> all_chars p a = true -> String.length a <= fuel ->
  (forall u t', t = u ++ t' -> u <> "" -> all_chars p u = true ->
                k (i + String.length a + String.length u) t' g = None) ->
  k (i + String.length a) t g = Some x ->
  plus_loop r k fuel i (a ++ t) g = Some x.
Proof.
  revert fuel i. induction a as [| c a IH]; intros fuel i Hne Hp Hf Hb Hk.
  - now destruct Hne.
  - simpl in Hp. apply andb_true_iff in Hp. destruct Hp as [Hc Ha].
    destruct fuel as [| fuel]; [simpl in Hf; lia |].
    simpl. rewrite run_class, Hc.
    assert (Hlt : Nat.ltb i (S i) = true) by (apply Nat.ltb_lt; lia).
    rewrite Hlt.
    change ((fix loop (fuel0 i0 : nat) (s : string) (g0 : Re.captures)
               {struct fuel0} : option Re.captures :=
               match fuel0 with
               | 0 => None
               | S fuel' =>
                   Re.run r i0 s g0
                     (fun (i' : nat) (s' : string) (g' : Re.captures) =>
                        Re.or_else
                          (if Nat.ltb i0 i' then loop fuel' i' s' g' else None)
                          (k i' s' g'))
               end) fuel (S i) (a ++ t) g)
      with (plus_loop r k fuel (S i) (a ++ t) g).
    simpl in Hf, Hb, Hk.
    destruct a as [| c' a'].
    + cbn [String.length] in Hk, Hb.
      change ("" ++ t) with t. rewrite plus_loop_none.
      * simpl. replace (i + 1) with (S i) in Hk by lia. exact Hk.
      * intros u t' Ht Hu Hpu.
        replace (S i + String.length u) with (i + 1 + String.length u) by lia.
        now apply Hb.
    + rewrite (IH fuel (S i)); [reflexivity | discriminate | exact Ha | | |].
      * simpl. simpl in Hf. lia.
      * intros u t' Ht Hu Hpu.
        replace (S i + String.length (String c' a') + String.length u)
          with (i + S (String.length (String c' a')) + String.length u) by lia.
        now apply Hb.
      * replace (S i + String.length (String c' a'))
          with (i + S (String.length (String c' a'))) by lia.
        exact Hk.
Qed.

End CharClass.

Lemma run_Dot_class (i : nat) (s : string) (g : Re.captures) (k : Re.cont) :
  Re.run Re.Dot i s g k
  = match s with
    | String c s' => if not_newline c then k (S i) s' g else None
    | EmptyString => None
    end.
Proof.
  destruct s as [| c s]; simpl; [reflexivity |].
  unfold not_newline. destruct (Ascii.eqb c Py.newline); reflexivity.
Qed.

Lemma run_Digit_class (i : nat) (s : string) (g : Re.captures) (k : Re.cont) :
  Re.run Re.Digit i s g k
  = match s with
    | String c s' => if Py.isdigit c then k (S i) s' g else None
    | EmptyString => None
    end.
Proof. destruct s; reflexivity. Qed.

Lemma output_regex_parts :
  output_regex
  = Re.Cat Re.Bol (Re.Cat (Re.Group 1 (Re.Plus Re.Dot)) regex_after_body).
Proof. reflexivity. Qed.

Lemma run_Bol_start (s : string) (g : Re.captures) (k : Re.cont) :
  Re.run Re.Bol 0 s g k = k 0 s g.
Proof. reflexivity. Qed.

Lemma substring_all (a : string) : substring 0 (String.length a) a = a.
Proof. rewrite <- (append_nil_r a) at 2. apply substring_prefix. Qed.

Lemma prefix_cons (c1 c2 : ascii) (a s : string) :
  prefix (String c1 a) (String c2 s)
  = if Ascii.eqb c1 c2 then prefix a s else false.
Proof.
  change (prefix (String c1 a) (String c2 s))
    with (if ascii_dec c1 c2 then prefix a s else false).
  destruct (ascii_dec c1 c2) as [-> | N].
  - now rewrite Ascii.eqb_refl.
  - apply Ascii.eqb_neq in N. now rewrite N.
Qed.

Lemma prefix_nil_r (c : ascii) (a : string) : prefix (String c a) "" = false.
Proof. reflexivity. Qed.

(** Text without [U] and [-] starts neither with the marker nor with
    [#SUP: ]. *)
Lemma no_marker_prefix (t : string) :
  all_chars (fun c => negb (Ascii.eqb c "U") && negb (Ascii.eqb c "-")) t
    = true ->
  prefix "-2 " t = false /\ prefix "#SUP: " t = false.
Proof.
  intros H. split.
  - destruct t as [| c1 t]; [reflexivity |]. rewrite prefix_cons.
    cbn [all_chars] in H. rewrite (Ascii.eqb_sym "-" c1).
    destruct (Ascii.eqb c1 "-"); [| reflexivity].
    rewrite andb_false_r in H. discriminate H.
  - destruct t as [| c1 [| c2 [| c3 t]]];
      rewrite ?prefix_cons, ?prefix_nil_r; try reflexivity;
      try (destruct (Ascii.eqb "#" c1); [| reflexivity];
           destruct (Ascii.eqb "S" c2); reflexivity).
    + destruct (Ascii.eqb "#" c1); reflexivity.
    + cbn [all_chars] in H. rewrite (Ascii.eqb_sym "U" c3).
      destruct (Ascii.eqb "#" c1); [| reflexivity].
      destruct (Ascii.eqb "S" c2); [| reflexivity].
      destruct (Ascii.eqb c3 "U"); [| reflexivity].
      cbn in H. rewrite !andb_false_r in H. discriminate H.
Qed.

(** After [#SUP: ], no later position of such a line starts a second
    match of the rest of the expression. *)
Lemma tail_suffix (x u t' : string) :
  "#SUP: " ++ x = u ++ t' -> u <> "" ->
  all_chars (fun c => negb (Ascii.eqb c "U") && negb (Ascii.eqb c "-")) x
    = true ->
  prefix "-2 " t' = false /\ prefix "#SUP: " t' = false.
Proof.
  intros E Hu Hx. cbn [append] in E.
  destruct u as [| c1 u]; [now destruct Hu |].
  injection E as <- E.
  destruct u as [| c2 u]; [cbn [append] in E; subst t'; split; reflexivity |].
  injection E as <- E.
  destruct u as [| c3 u]; [cbn [append] in E; subst t'; split; reflexivity |].
  injection E as <- E.
  destruct u as [| c4 u]; [cbn [append] in E; subst t'; split; reflexivity |].
  injection E as <- E.
  destruct u as [| c5 u]; [cbn [append] in E; subst t'; split; reflexivity |].
  injection E as <- E.
  destruct u as [| c6 u]; [cbn [append] in E; subst t'; split; reflexivity |].
  injection E as <- E.
  apply no_marker_prefix. subst x. rewrite all_chars_app in Hx.
  apply andb_true_iff in Hx. exact (proj2 Hx).
Qed.

Lemma after_body_none (t : string) (i : nat) (g : Re.captures) (k : Re.cont) :
  prefix "-2 " t = false -> prefix "#SUP: " t = false ->
  Re.run regex_after_body i t g k = None.
Proof.
  intros H2 HS. unfold regex_after_body.
  rewrite run_Cat, run_Opt, run_Group, (run_Lit_none _ _ _ _ _ H2).
  cbn [Re.or_else]. unfold regex_after_marker.
  rewrite run_Cat. apply run_Lit_none, HS.
Qed.

Lemma digit_no_U_dash (c : ascii) :
  Py.isdigit c = true ->
  negb (Ascii.eqb c "U") && negb (Ascii.eqb c "-") = true.
Proof.
  intros H.
  destruct (Ascii.eqb_spec c "U"), (Ascii.eqb_spec c "-"); subst;
    try reflexivity; vm_compute in H; discriminate H.
Qed.

Lemma id_char_no_U_dash (c : ascii) :
  id_char c = true ->
  negb (Ascii.eqb c "U") && negb (Ascii.eqb c "-") = true.
Proof.
  intros H.
  destruct (Ascii.eqb_spec c "U"), (Ascii.eqb_spec c "-"); subst;
    try reflexivity; vm_compute in H; discriminate H.
Qed.

Lemma id_char_not_newline (c : ascii) :
  id_char c = true -> not_newline c = true.
Proof.
  intros H. unfold not_newline.
  destruct (Ascii.eqb_spec c Py.newline); subst;
    [vm_compute in H; discriminate H | reflexivity].
Qed.

(** The match of a line [body #SUP: digits #SID: ids]: the first group is
    the whole body, the optional group takes no part, the third and fourth
    groups are the support and the ids. *)
Lemma run_output_line (body ds ids : string) :
  body <> "" -> all_chars not_newline body = true ->
  ds <> "" -> all_chars Py.isdigit ds = true ->
  ids <> "" -> all_chars id_char ids = true ->
  Re.run output_regex 0 (body ++ "#SUP: " ++ ds ++ " #SID: " ++ ids) []
         accept
  = Some [(4, ids); (3, ds); (1, body)].
Proof.
  intros Hb Hbn Hd Hdd Hi Hii.
  assert (HQ : all_chars
                 (fun c => negb (Ascii.eqb c "U") && negb (Ascii.eqb c "-"))
                 (ds ++ " #SID: " ++ ids) = true).
  { rewrite !all_chars_app.
    rewrite (all_chars_impl _ _ _ digit_no_U_dash Hdd).
    rewrite (all_chars_impl _ _ _ id_char_no_U_dash Hii). reflexivity. }
  rewrite output_regex_parts, run_Cat, run_Bol_start.
  rewrite run_Cat, run_Group, run_Plus.
  apply (plus_loop_some Re.Dot not_newline run_Dot_class);
    [exact Hb | exact Hbn | rewrite length_append; lia | |].
  - intros u t' Ht Hu _. cbv beta.
    destruct (tail_suffix _ _ _ Ht Hu HQ) as [H2 HS].
    now apply after_body_none.
  - cbv beta. unfold regex_after_body.
    rewrite run_Cat, run_Opt, run_Group.
    rewrite (run_Lit_none "-2 ") by reflexivity.
    cbn [Re.or_else]. unfold regex_after_marker.
    rewrite run_Cat, run_Lit_app. rewrite run_Cat, run_Group, run_Plus.
    apply (plus_loop_some Re.Digit Py.isdigit run_Digit_class);
      [exact Hd | exact Hdd | rewrite length_append; lia | |].
    + intros u t' Ht Hu Hp.
      destruct u as [| c u]; [now destruct Hu |].
      injection Ht as <- _. simpl in Hp. discriminate Hp.
    + cbv beta. unfold regex_after_support.
      rewrite run_Cat, run_Lit_app. unfold regex_after_sid.
      cbn [Re.Seq fold_right].
      rewrite run_Cat, run_Group, run_Plus.
      pose proof (plus_loop_some Re.Dot not_newline run_Dot_class) as P.
      specialize (fun k fuel i g x => P k ids "" fuel i g x Hi
                    (all_chars_impl _ _ _ id_char_not_newline Hii)).
      rewrite (append_nil_r ids) in P.
      apply P; [lia | |].
      * intros u t' Ht Hu _. destruct u; [now destruct Hu | discriminate Ht].
      * cbn [Re.run]. unfold accept.
        repeat match goal with
               | |- context [?a + ?n - ?a] =>
                   replace (a + n - a) with n by lia
               end.
        rewrite substring_all, !substring_prefix. reflexivity.
Qed.

Lemma search_from_run (r : Re.regex) (i : nat) (s : string)
  (g : Re.captures) :
  Re.run r i s [] accept = Some g -> Re.search_from r i s = Some g.
Proof. intros H. destruct s; simpl; fold accept; now rewrite H. Qed.

(** ** Lines printed for Patterns with single-item itemsets *)

Lemma str_char_not_space (c : ascii) : str_char c = true -> not_space c = true.
Proof.
  unfold str_char, not_space. intros H. apply orb_true_iff in H.
  destruct H as [H | H].
  - now rewrite (isdigit_not_space _ H).
  - apply Ascii.eqb_eq in H. subst c. reflexivity.
Qed.

Lemma str_char_plain (c : ascii) : str_char c = true -> plain_char c = true.
Proof.
  intros H. unfold plain_char.
  destruct (Ascii.eqb_spec c Py.newline), (Ascii.eqb_spec c "013"); subst;
    try reflexivity; vm_compute in H; discriminate H.
Qed.

Lemma id_char_plain (c : ascii) : id_char c = true -> plain_char c = true.
Proof.
  intros H. unfold plain_char.
  destruct (Ascii.eqb_spec c Py.newline), (Ascii.eqb_spec c "013"); subst;
    try reflexivity; vm_compute in H; discriminate H.
Qed.

Lemma plain_not_newline (c : ascii) :
  plain_char c = true -> not_newline c = true.
Proof.
  unfold plain_char, not_newline. intros H.
  apply andb_true_iff in H. exact (proj1 H).
Qed.

Lemma isdigit_id_char (c : ascii) : Py.isdigit c = true -> id_char c = true.
Proof. unfold id_char. now intros ->. Qed.

Lemma isdigit_str_char (c : ascii) : Py.isdigit c = true -> str_char c = true.
Proof. unfold str_char. now intros ->. Qed.

(** [str] prints digits, after a minus sign for a negative number. *)
Lemma str_chars (z : Z) : all_chars str_char (Py.str z) = true.
Proof.
  destruct z as [| p | p].
  - reflexivity.
  - rewrite str_pos. exact (all_chars_impl _ _ _ isdigit_str_char (uint_digits _)).
  - rewrite str_neg. cbn [all_chars].
    now rewrite (all_chars_impl _ _ _ isdigit_str_char (uint_digits _)).
Qed.

Lemma str_nonneg_digits (z : Z) :
  (0 <= z)%Z -> all_chars Py.isdigit (Py.str z) = true.
Proof.
  destruct z as [| p | p]; intros H.
  - reflexivity.
  - rewrite str_pos. apply uint_digits.
  - lia.
Qed.

Lemma str_nonempty (z : Z) : Py.str z <> "".
Proof. exact (proj1 (str_is_token z)). Qed.

Lemma append_nonempty_l (a b : string) : a <> "" -> a ++ b <> "".
Proof. destruct a; [intros H; now destruct H | discriminate]. Qed.

Lemma render_body_chars (elems : list Z) :
  all_chars plain_char (render_body elems) = true.
Proof.
  induction elems as [| e elems IH]; cbn [render_body]; [reflexivity |].
  rewrite !all_chars_app, IH.
  now rewrite (all_chars_impl _ _ _ str_char_plain (str_chars e)).
Qed.

Lemma render_body_nonempty (elems : list Z) :
  elems <> [] -> render_body elems <> "".
Proof.
  destruct elems as [| e elems]; [intros H; now destruct H |].
  intros _. cbn [render_body]. apply append_nonempty_l, str_nonempty.
Qed.

Lemma concat_ids_chars (sids : list Z) :
  Forall (fun i => (0 <= i)%Z) sids ->
  all_chars id_char (String.concat " " (map Py.str sids)) = true.
Proof.
  induction 1 as [| z sids Hz Hs IH]; [reflexivity |].
  cbn [map String.concat]. destruct (map Py.str sids) as [| t ts] eqn:E.
  - exact (all_chars_impl _ _ _ isdigit_id_char (str_nonneg_digits _ Hz)).
  - rewrite !all_chars_app, IH.
    now rewrite (all_chars_impl _ _ _ isdigit_id_char (str_nonneg_digits _ Hz)).
Qed.

Lemma concat_ids_nonempty (sids : list Z) :
  sids <> [] -> String.concat " " (map Py.str sids) <> "".
Proof.
  destruct sids as [| z sids]; [intros H; now destruct H |]. intros _.
  cbn [map String.concat]. destruct (map Py.str sids).
  - apply str_nonempty.
  - apply append_nonempty_l, str_nonempty.
Qed.

(** The ids end with the last number printed. *)
Lemma concat_ids_last (sids : list Z) :
  sids <> [] ->
  exists pre z, String.concat " " (map Py.str sids) = pre ++ Py.str z.
Proof.
  induction sids as [| z sids IH]; [intros H; now destruct H |]. intros _.
  destruct sids as [| z' sids].
  - exists "", z. reflexivity.
  - destruct IH as (pre & l & E); [discriminate |].
    exists (Py.str z ++ " " ++ pre), l.
    change (String.concat " " (map Py.str (z :: z' :: sids)))
      with (Py.str z ++ " " ++ String.concat " " (map Py.str (z' :: sids))).
    rewrite E, !append_assoc. reflexivity.
Qed.

(** *** [strip] *)

Lemma rstrip_spaces (w : string) :
  all_chars Py.isspace w = true -> Py.rstrip w = "".
Proof.
  induction w as [| c w IH]; simpl; [reflexivity |].
  intros H. apply andb_true_iff in H. destruct H as [Hc Hw].
  now rewrite (IH Hw), Hc.
Qed.

Lemma rstrip_token_spaces (t w : string) :
  is_token t -> all_chars Py.isspace w = true -> Py.rstrip (t ++ w) = t.
Proof.
  intros [Hne Ht] Hw. induction t as [| c t IH]; [now destruct Hne |].
  cbn [all_chars] in Ht. apply andb_true_iff in Ht. destruct Ht as [Hc Ht].
  apply negb_true_iff in Hc.
  change (Py.rstrip (String c t ++ w))
    with (match Py.rstrip (t ++ w) with
          | "" => if Py.isspace c then "" else String c ""
          | String c' r' => String c (String c' r')
          end).
  destruct t as [| c' t'].
  - change ("" ++ w) with w. now rewrite (rstrip_spaces _ Hw), Hc.
  - rewrite IH; [reflexivity | discriminate | exact Ht].
Qed.

Lemma rstrip_before_token (a t w : string) :
  is_token t -> all_chars Py.isspace w = true ->
  Py.rstrip (a ++ t ++ w) = a ++ t.
Proof.
  intros Ht Hw. induction a as [| c a IH].
  - exact (rstrip_token_spaces _ _ Ht Hw).
  - change (Py.rstrip (String c a ++ t ++ w))
      with (match Py.rstrip (a ++ t ++ w) with
            | "" => if Py.isspace c then "" else String c ""
            | String c' r' => String c (String c' r')
            end).
    rewrite IH. change (String c a ++ t) with (String c (a ++ t)).
    destruct (a ++ t) eqn:E; [| reflexivity].
    destruct a; [| discriminate E]. destruct Ht as [Hne _].
    now destruct Hne.
Qed.

(** Text that starts with a token and ends with one is what [strip] leaves
    of it, whatever whitespace follows. *)
Lemma strip_between_tokens (t1 a t2 w : string) :
  is_token t1 -> is_token t2 -> all_chars Py.isspace w = true ->
  Py.strip ((t1 ++ a ++ t2) ++ w) = t1 ++ a ++ t2.
Proof.
  intros [Hne1 H1] Ht2 Hw. unfold Py.strip.
  destruct t1 as [| c t1]; [now destruct Hne1 |].
  cbn [all_chars] in H1. apply andb_true_iff in H1. destruct H1 as [Hc _].
  apply negb_true_iff in Hc.
  assert (Hl : Py.lstrip ((String c t1 ++ a ++ t2) ++ w)
               = (String c t1 ++ a ++ t2) ++ w).
  { cbn [append Py.lstrip]. now rewrite Hc. }
  rewrite Hl.
  rewrite <- (append_assoc (String c t1) a t2).
  rewrite (append_assoc (String c t1 ++ a) t2 w).
  apply rstrip_before_token; assumption.
Qed.

(** *** [split] at a separator that starts with a blank *)

Lemma split_go_cons (sep cur : string) (c : ascii) (r : string) :
  Py.split_go sep 0 cur (String c r)
  = if prefix sep (String c r)
    then cur :: Py.split_go sep (String.length sep - 1) "" r
    else Py.split_go sep 0 (cur ++ String c "") r.
Proof. reflexivity. Qed.

Lemma split_go_skip (sep u rest cur : string) :
  Py.split_go sep (String.length u) cur (u ++ rest)
  = Py.split_go sep 0 cur rest.
Proof.
  induction u as [| c u IH]; [reflexivity |]. exact IH.
Qed.

Lemma split_go_token_end (sep' t cur : string) :
  all_chars not_space t = true ->
  Py.split_go (String " " sep') 0 cur t = [cur ++ t].
Proof.
  revert cur. induction t as [| c t IH]; intros cur H.
  - now rewrite append_nil_r.
  - cbn [all_chars] in H. apply andb_true_iff in H. destruct H as [Hc Ht].
    rewrite split_go_cons, prefix_cons.
    assert (E : Ascii.eqb " " c = false).
    { destruct (Ascii.eqb_spec " " c); [subst c; discriminate Hc | reflexivity]. }
    rewrite E, (IH _ Ht), append_assoc. reflexivity.
Qed.

Lemma split_go_token_sep (sep' t rest cur : string) :
  all_chars not_space t = true ->
  Py.split_go (String " " sep') 0 cur (t ++ String " " sep' ++ rest)
  = (cur ++ t) :: Py.split_go (String " " sep') 0 "" rest.
Proof.
  revert cur. induction t as [| c t IH]; intros cur H.
  - change ("" ++ String " " sep' ++ rest) with (String " " (sep' ++ rest)).
    rewrite split_go_cons.
    change (String " " (sep' ++ rest)) with (String " " sep' ++ rest).
    rewrite prefix_app, append_nil_r.
    replace (String.length (String " " sep') - 1) with (String.length sep')
      by (cbn [String.length]; lia).
    rewrite split_go_skip. reflexivity.
  - cbn [all_chars] in H. apply andb_true_iff in H. destruct H as [Hc Ht].
    change (String c t ++ String " " sep' ++ rest)
      with (String c (t ++ String " " sep' ++ rest)).
    rewrite split_go_cons, prefix_cons.
    assert (E : Ascii.eqb " " c = false).
    { destruct (Ascii.eqb_spec " " c); [subst c; discriminate Hc | reflexivity]. }
    rewrite E, (IH _ Ht), append_assoc. reflexivity.
Qed.

Lemma str_not_space (z : Z) : all_chars not_space (Py.str z) = true.
Proof. exact (proj2 (str_is_token z)). Qed.

(** The body splits into its elements, then into what follows them. *)
Lemma split_render_body (elems : list Z) (rest : string) :
  Py.split " -1 " (render_body elems ++ rest)
  = (map Py.str elems ++ Py.split " -1 " rest)%list.
Proof.
  unfold Py.split. induction elems as [| e elems IH]; [reflexivity |].
  cbn [render_body map]. rewrite !append_assoc.
  rewrite (split_go_token_sep "-1 " _ _ "" (str_not_space e)), IH.
  reflexivity.
Qed.

Lemma split_concat_ids (sids : list Z) :
  sids <> [] ->
  Py.split " " (String.concat " " (map Py.str sids)) = map Py.str sids.
Proof.
  unfold Py.split.
  induction sids as [| z sids IH]; [intros H; now destruct H |]. intros _.
  destruct sids as [| z' sids].
  - exact (split_go_token_end "" _ "" (str_not_space z)).
  - change (String.concat " " (map Py.str (z :: z' :: sids)))
      with (Py.str z ++ " " ++ String.concat " " (map Py.str (z' :: sids))).
    rewrite (split_go_token_sep "" _ _ "" (str_not_space z)), IH;
      [reflexivity | discriminate].
Qed.

Lemma filter_nonempty_str (zs : list Z) :
  filter (fun s => Nat.ltb 0 (String.length s)) (map Py.str zs)
  = map Py.str zs.
Proof.
  induction zs as [| z zs IH]; [reflexivity |]. cbn [map filter].
  rewrite IH. pose proof (str_nonempty z) as H.
  destruct (Py.str z); [now destruct H | reflexivity].
Qed.

(** ** Decoding lines of the output format *)

(** In a line [body #SUP: digits #SID: ids] the first group is everything
    before [#SUP: ], a marker [-2 ] at the end of the body included, and
    the optional second group takes no part in the match. *)
Theorem groups_of_output_line (line body ds ids : string) :
  Py.strip line = body ++ "#SUP: " ++ ds ++ " #SID: " ++ ids ->
  body <> "" -> all_chars not_newline body = true ->
  ds <> "" -> all_chars Py.isdigit ds = true ->
  ids <> "" -> all_chars id_char ids = true ->
  groups_of_line line = Some (Some body, None, Some ds, Some ids).
Proof.
  intros E Hb Hbn Hd Hdd Hi Hii. unfold groups_of_line, Re.search.
  rewrite E.
  rewrite (search_from_run _ _ _ _ (run_output_line _ _ _ Hb Hbn Hd Hdd Hi Hii)).
  reflexivity.
Qed.

Lemma groups_of_output_line_witness :
  Py.strip "7 -1 -2 #SUP: 12 #SID: 0 3" = "7 -1 -2 " ++ "#SUP: " ++ "12" ++ " #SID: " ++ "0 3"
  /\ "7 -1 -2 " <> "" /\ all_chars not_newline "7 -1 -2 " = true
  /\ "12" <> "" /\ all_chars Py.isdigit "12" = true
  /\ "0 3" <> "" /\ all_chars id_char "0 3" = true
  /\ groups_of_line "7 -1 -2 #SUP: 12 #SID: 0 3"
     = Some (Some "7 -1 -2 ", None, Some "12", Some "0 3").
Proof.
  repeat (split; [first [reflexivity | discriminate] |]).
  apply (groups_of_output_line "7 -1 -2 #SUP: 12 #SID: 0 3"
           "7 -1 -2 " "12" "0 3");
    first [reflexivity | discriminate].
Defined.

(** How such a line is decoded. *)
Lemma parse_line_of_format (line body ds ids : string) :
  Py.strip line = body ++ "#SUP: " ++ ds ++ " #SID: " ++ ids ->
  body <> "" -> all_chars not_newline body = true ->
  ds <> "" -> all_chars Py.isdigit ds = true ->
  ids <> "" -> all_chars id_char ids = true ->
  parse_line line
  = (pattern <- map_result Py.int
                  (filter (fun s => Nat.ltb 0 (String.length s))
                          (Py.split " -1 " body)) ;;
     support <- Py.int ds ;;
     sequence_ids <- map_result Py.int (Py.split " " ids) ;;
     Ok (pattern, support, sequence_ids)).
Proof.
  intros E Hb Hbn Hd Hdd Hi Hii. unfold parse_line, Re.search. rewrite E.
  rewrite (search_from_run _ _ _ _ (run_output_line _ _ _ Hb Hbn Hd Hdd Hi Hii)).
  reflexivity.
Qed.

Lemma map_result_app {A B : Type} (f : A -> result B) (xs ys : list A) :
  map_result f (xs ++ ys)%list
  = (a <- map_result f xs ;; b <- map_result f ys ;; Ok (a ++ b)%list).
Proof.
  induction xs as [| x xs IH]; simpl.
  - destruct (map_result f ys); reflexivity.
  - destruct (f x); simpl; [| reflexivity]. rewrite IH.
    destruct (map_result f xs); simpl; [| reflexivity].
    destruct (map_result f ys); reflexivity.
Qed.

(** The line printed for a Pattern, and the same with a marker, are of
    the format; [strip] removes the whitespace after them. *)
Lemma strip_rendered (elems : list Z) (mid : string) (sup : Z)
  (sids : list Z) (w : string) :
  elems <> [] -> sids <> [] -> all_chars Py.isspace w = true ->
  Py.strip (((render_body elems ++ mid) ++ render_tail sup sids) ++ w)
  = (render_body elems ++ mid) ++ render_tail sup sids.
Proof.
  intros He Hs Hw.
  destruct elems as [| e elems]; [now destruct He |].
  destruct (concat_ids_last sids Hs) as (pre & l & E).
  assert (R : (render_body (e :: elems) ++ mid) ++ render_tail sup sids
              = Py.str e
                ++ (" -1 " ++ render_body elems ++ mid ++ "#SUP: "
                    ++ Py.str sup ++ " #SID: " ++ pre)
                ++ Py.str l).
  { unfold render_tail. rewrite E. cbn [render_body].
    rewrite !append_assoc. reflexivity. }
  rewrite R.
  apply strip_between_tokens; [apply str_is_token .. | exact Hw].
Qed.

Lemma rendered_body_not_newline (elems : list Z) (mid : string) :
  all_chars plain_char mid = true ->
  all_chars not_newline (render_body elems ++ mid) = true.
Proof.
  intros Hm. apply (all_chars_impl _ _ _ plain_not_newline).
  now rewrite all_chars_app, render_body_chars, Hm.
Qed.

Lemma rendered_tail_fits (elems : list Z) (sup : Z) (sids : list Z) :
  elems <> [] -> (0 <= sup)%Z -> sids <> [] ->
  Forall (fun i => (0 <= i)%Z) sids ->
  render_body elems <> ""
  /\ all_chars not_newline (render_body elems) = true
  /\ Py.str sup <> "" /\ all_chars Py.isdigit (Py.str sup) = true
  /\ String.concat " " (map Py.str sids) <> ""
  /\ all_chars id_char (String.concat " " (map Py.str sids)) = true.
Proof.
  intros He Hsup Hs Hpos.
  repeat split;
    [ exact (render_body_nonempty _ He)
    | exact (all_chars_impl _ _ _ plain_not_newline (render_body_chars elems))
    | exact (str_nonempty sup)
    | exact (str_nonneg_digits _ Hsup)
    | exact (concat_ids_nonempty _ Hs)
    | exact (concat_ids_chars _ Hpos) ].
Qed.

(** A line that [strip] turns into the line printed for a Pattern decodes
    to that Pattern. *)
Lemma parse_line_stripped (p : Pattern) (line : string) :
  printable p -> Py.strip line = render_pattern p -> parse_line line = Ok p.
Proof.
  destruct p as [[elems sup] sids].
  unfold printable, render_pattern, elements, support, sequence_ids.
  cbn [fst snd]. intros (He & Hsup & Hs & Hpos) E.
  destruct (rendered_tail_fits elems sup sids He Hsup Hs Hpos)
    as (B1 & B2 & D1 & D2 & I1 & I2).
  rewrite (parse_line_of_format _ (render_body elems) (Py.str sup)
             (String.concat " " (map Py.str sids)) E B1 B2 D1 D2 I1 I2).
  rewrite <- (append_nil_r (render_body elems)), split_render_body.
  change (Py.split " -1 " "") with [""].
  rewrite filter_app, filter_nonempty_str. cbn [filter String.length Nat.ltb Nat.leb].
  rewrite app_nil_r, map_int_str. cbn [bind].
  rewrite int_str. cbn [bind].
  rewrite (split_concat_ids _ Hs), map_int_str. reflexivity.
Qed.


(** Round trip: the line printed for a Pattern with single-item itemsets
    decodes to that Pattern, whatever whitespace ends the line. *)
Theorem parse_line_render_pattern (p : Pattern) (w : string) :
  printable p -> all_chars Py.isspace w = true ->
  parse_line (render_pattern p ++ w) = Ok p.
Proof.
  intros Hp Hw.
  apply (parse_line_stripped p (render_pattern p ++ w) Hp).
  destruct Hp as (He & _ & Hs & _). unfold render_pattern.
  pose proof (strip_rendered (elements p) "" (support p) (sequence_ids p) w
                He Hs Hw) as E.
  now rewrite !append_nil_r in E.
Qed.

Lemma parse_line_render_pattern_witness :
  printable ([4; 7], 3, [0; 2; 5])%Z
  /\ all_chars Py.isspace nl = true
  /\ parse_line (render_pattern ([4; 7], 3, [0; 2; 5])%Z ++ nl)
     = Ok ([4; 7], 3, [0; 2; 5])%Z.
Proof.
  assert (H : printable ([4; 7], 3, [0; 2; 5])%Z).
  { unfold printable. cbn.
    repeat split; try discriminate; try lia. repeat constructor; lia. }
  split; [exact H |]. split; [reflexivity |].
  exact (parse_line_render_pattern ([4; 7], 3, [0; 2; 5])%Z nl H eq_refl).
Defined.

(** With the end-of-sequence marker before [#SUP:] the same line decodes
    to the Pattern with [-2] added as a last element. *)
Theorem parse_line_render_pattern_marked (p : Pattern) (w : string) :
  printable p -> all_chars Py.isspace w = true ->
  parse_line (render_pattern_marked p ++ w)
  = Ok ((elements p ++ [-2])%list%Z, support p, sequence_ids p).
Proof.
  destruct p as [[elems sup] sids].
  unfold printable, render_pattern_marked, elements, support, sequence_ids.
  cbn [fst snd]. intros (He & Hsup & Hs & Hpos) Hw.
  pose proof (strip_rendered elems "-2 " sup sids w He Hs Hw) as E.
  rewrite <- (append_assoc (render_body elems) "-2 ").
  rewrite (parse_line_of_format _ (render_body elems ++ "-2 ") (Py.str sup)
             (String.concat " " (map Py.str sids)) E
             (append_nonempty_l _ _ (render_body_nonempty _ He))
             (rendered_body_not_newline elems "-2 " eq_refl)
             (str_nonempty sup) (str_nonneg_digits _ Hsup)
             (concat_ids_nonempty _ Hs) (concat_ids_chars _ Hpos)).
  rewrite split_render_body.
  change (Py.split " -1 " "-2 ") with ["-2 "].
  rewrite filter_app, filter_nonempty_str.
  cbn [filter String.length Nat.ltb Nat.leb].
  rewrite map_result_app, map_int_str. cbn [bind map_result].
  change (Py.int "-2 ") with (@Ok Z (-2)%Z). cbn [bind].
  rewrite int_str. cbn [bind].
  rewrite (split_concat_ids _ Hs), map_int_str. reflexivity.
Qed.

Lemma parse_line_render_pattern_marked_witness :
  printable ([4; 7], 3, [0; 2; 5])%Z
  /\ all_chars Py.isspace nl = true
  /\ parse_line (render_pattern_marked ([4; 7], 3, [0; 2; 5])%Z ++ nl)
     = Ok (([4; 7] ++ [-2])%list, 3, [0; 2; 5])%Z.
Proof.
  assert (H : printable ([4; 7], 3, [0; 2; 5])%Z).
  { unfold printable. cbn.
    repeat split; try discriminate; try lia. repeat constructor; lia. }
  split; [exact H |]. split; [reflexivity |].
  exact (parse_line_render_pattern_marked ([4; 7], 3, [0; 2; 5])%Z nl H
           eq_refl).
Defined.

(** ** Files of lines *)

Lemma translate_newlines_plain (s : string) :
  all_chars (fun c => negb (Ascii.eqb c "013")) s = true ->
  Py.translate_newlines s = s.
Proof.
  induction s as [| c s IH]; [reflexivity |]. cbn [all_chars]. intros H.
  apply andb_true_iff in H. destruct H as [Hc Hs].
  apply negb_true_iff in Hc. cbn [Py.translate_newlines].
  now rewrite Hc, (IH Hs).
Qed.

Lemma lines_go_cons (cur : string) (c : ascii) (r : string) :
  Py.lines_go cur (String c r)
  = if Ascii.eqb c Py.newline
    then (cur ++ String c "") :: Py.lines_go "" r
    else Py.lines_go (cur ++ String c "") r.
Proof. reflexivity. Qed.

Lemma lines_go_line (a rest cur : string) :
  all_chars not_newline a = true ->
  Py.lines_go cur (a ++ nl ++ rest) = (cur ++ a ++ nl) :: Py.lines_go "" rest.
Proof.
  revert cur. induction a as [| c a IH]; intros cur H.
  - reflexivity.
  - cbn [all_chars] in H. apply andb_true_iff in H. destruct H as [Hc Ha].
    apply negb_true_iff in Hc.
    change (String c a ++ nl ++ rest) with (String c (a ++ nl ++ rest)).
    rewrite lines_go_cons, Hc, (IH _ Ha), append_assoc. reflexivity.
Qed.

Lemma plain_no_cr (c : ascii) :
  plain_char c = true -> negb (Ascii.eqb c "013") = true.
Proof.
  unfold plain_char. intros H. apply andb_true_iff in H. exact (proj2 H).
Qed.

(** A text made of lines free of line breaks, each ended by a newline,
    is read back as exactly these lines. *)
Lemma readlines_unlines (ls : list string) :
  Forall (fun l => all_chars plain_char l = true) ls ->
  Py.readlines (fold_right (fun l r => (l ++ nl) ++ r) "" ls)
  = map (fun l => l ++ nl) ls.
Proof.
  intros H. unfold Py.readlines. rewrite translate_newlines_plain.
  - induction H as [| l ls Hl _ IH]; [reflexivity |].
    cbn [fold_right map]. rewrite append_assoc.
    rewrite (lines_go_line _ _ _ (all_chars_impl _ _ _ plain_not_newline Hl)).
    rewrite IH. reflexivity.
  - induction H as [| l ls Hl _ IH]; [reflexivity |].
    cbn [fold_right]. rewrite !all_chars_app, IH.
    now rewrite (all_chars_impl _ _ _ plain_no_cr Hl).
Qed.








(** ** More on the decoder's state *)

(** Decoding replaces the stored Patterns, it does not add to them: a
    second decode of the same file gives the state of the first. *)
Theorem parse_output_twice (w : world) (self self' : Spmf) :
  parse_output w self = (Ok tt, self') ->
  parse_output w self' = (Ok tt, self').
Proof.
  unfold parse_output.
  destruct (read_file (files w) (output_ self)) as [content |] eqn:Hr;
    [| discriminate].
  destruct (parse_lines (Py.readlines content) []) as [ps | e] eqn:Hp;
    [| discriminate].
  intros [= <-]. cbn [output_ set_parsed_output_]. rewrite Hr, Hp.
  reflexivity.
Qed.

Lemma parse_output_twice_witness :
  parse_output (world_with_output line_single_items)
               (fresh_object "spmf-output.txt" 0)
    = (Ok tt, set_parsed_output_ (fresh_object "spmf-output.txt" 0)
                [([1], 3, [0; 1; 2])]%Z)
  /\ parse_output (world_with_output line_single_items)
       (set_parsed_output_ (fresh_object "spmf-output.txt" 0)
          [([1], 3, [0; 1; 2])]%Z)
     = (Ok tt, set_parsed_output_ (fresh_object "spmf-output.txt" 0)
                 [([1], 3, [0; 1; 2])]%Z).
Proof.
  assert (H : parse_output (world_with_output line_single_items)
                (fresh_object "spmf-output.txt" 0)
              = (Ok tt, set_parsed_output_ (fresh_object "spmf-output.txt" 0)
                          [([1], 3, [0; 1; 2])]%Z))
    by (vm_compute; reflexivity).
  split; [exact H |].
  exact (parse_output_twice _ _ _ H).
Defined.

(** ** What the decoder can raise *)










Lemma parse_output_one_pattern_per_line_witness :
  read_file (files (world_with_output (line_single_items ++ line_single_items)))
            (output_ (fresh_object "spmf-output.txt" 0))
    = Some (line_single_items ++ line_single_items)
  /\ parse_output (world_with_output (line_single_items ++ line_single_items))
                  (fresh_object "spmf-output.txt" 0)
     = (Ok tt, set_parsed_output_ (fresh_object "spmf-output.txt" 0)
                 [([1], 3, [0; 1; 2]); ([1], 3, [0; 1; 2])]%Z)
  /\ (set_parsed_output_ (fresh_object "spmf-output.txt" 0)
        [([1], 3, [0; 1; 2]); ([1], 3, [0; 1; 2])]%Z
      = set_parsed_output_ (fresh_object "spmf-output.txt" 0)
          (parsed_output_
             (set_parsed_output_ (fresh_object "spmf-output.txt" 0)
                [([1], 3, [0; 1; 2]); ([1], 3, [0; 1; 2])]%Z))
      /\ Forall2 (fun l p => parse_line l = Ok p)
                 (Py.readlines (line_single_items ++ line_single_items))
                 (parsed_output_
                    (set_parsed_output_ (fresh_object "spmf-output.txt" 0)
                       [([1], 3, [0; 1; 2]); ([1], 3, [0; 1; 2])]%Z))
      /\ List.length
           (parsed_output_
              (set_parsed_output_ (fresh_object "spmf-output.txt" 0)
                 [([1], 3, [0; 1; 2]); ([1], 3, [0; 1; 2])]%Z))
         = List.length (Py.readlines (line_single_items ++ line_single_items))).
Proof.
  assert (H : parse_output
                (world_with_output (line_single_items ++ line_single_items))
                (fresh_object "spmf-output.txt" 0)
              = (Ok tt, set_parsed_output_ (fresh_object "spmf-output.txt" 0)
                          [([1], 3, [0; 1; 2]); ([1], 3, [0; 1; 2])]%Z))
    by (vm_compute; reflexivity).
  split; [reflexivity |]. split; [exact H |].
  exact (parse_output_one_pattern_per_line
           (world_with_output (line_single_items ++ line_single_items))
           (fresh_object "spmf-output.txt" 0) _
           (line_single_items ++ line_single_items) eq_refl H).
Defined.

Lemma parse_output_returns_witness :
  read_file (files (world_with_output (line_single_items ++ line_single_items)))
            (output_ (fresh_object "spmf-output.txt" 0))
    = Some (line_single_items ++ line_single_items)
  /\ (forall l,
        In l (Py.readlines (line_single_items ++ line_single_items)) ->
        exists p, parse_line l = Ok p)
  /\ exists ps,
       parse_output (world_with_output (line_single_items ++ line_single_items))
                    (fresh_object "spmf-output.txt" 0)
       = (Ok tt, set_parsed_output_ (fresh_object "spmf-output.txt" 0) ps)
       /\ Forall2 (fun l p => parse_line l = Ok p)
                  (Py.readlines (line_single_items ++ line_single_items)) ps.
Proof.
  assert (H : forall l,
             In l (Py.readlines (line_single_items ++ line_single_items)) ->
             exists p, parse_line l = Ok p).
  { intros l Hl.
    replace (Py.readlines (line_single_items ++ line_single_items))
      with [line_single_items; line_single_items] in Hl
      by (vm_compute; reflexivity).
    exists ([1], 3, [0; 1; 2])%Z.
    destruct Hl as [<- | [<- | []]]; vm_compute; reflexivity. }
  split; [reflexivity |]. split; [exact H |].
  exact (parse_output_returns
           (world_with_output (line_single_items ++ line_single_items))
           (fresh_object "spmf-output.txt" 0)
           (line_single_items ++ line_single_items) eq_refl H).
Defined.

(** ** More on the encoder *)

Lemma render_plain (l : list (string * ascii)) :
  Forall (fun e => all_chars plain_char (fst e) = true
                   /\ plain_char (snd e) = true) l ->
  all_chars plain_char (render l) = true.
Proof.
  induction 1 as [| [t c] l [Ht Hc] _ IH]; [reflexivity |].
  cbn [render fst snd] in *. rewrite all_chars_app. cbn [all_chars].
  now rewrite Ht, Hc, IH.
Qed.

Lemma item_sets_plain (seq : list (list Z)) :
  all_chars plain_char (render (flat_map item_set_render seq)) = true.
Proof.
  apply render_plain, Forall_flat_map, Forall_forall. intros s _.
  unfold item_set_render. apply Forall_app. split.
  - apply Forall_map, Forall_forall. intros i _. cbn [fst snd].
    split; [| reflexivity].
    exact (all_chars_impl _ _ _ str_char_plain (str_chars i)).
  - constructor; [| constructor]. split; reflexivity.
Qed.

Lemma encode_seq_line (seq : list (list Z)) :
  encode_seq "" seq
  = (render (flat_map item_set_render seq) ++ Py.str (-2)) ++ nl.
Proof.
  rewrite encode_seq_render. unfold seq_render.
  rewrite render_app. cbn [render append]. rewrite append_assoc.
  reflexivity.
Qed.

Lemma encode_normal_unlines (db : list (list (list Z))) :
  encode_normal db
  = fold_right (fun l r => (l ++ nl) ++ r) ""
      (map (fun seq => render (flat_map item_set_render seq) ++ Py.str (-2))
           db).
Proof.
  rewrite encode_normal_render. unfold db_render.
  induction db as [| seq db IH]; [reflexivity |].
  cbn [flat_map map fold_right]. rewrite render_app, IH.
  f_equal. rewrite <- encode_seq_line, encode_seq_render. reflexivity.
Qed.

(** The normal encoding writes one line for each sequence, in order: read
    back line by line, the text is the list of the encoded sequences, each
    ended by the sentinel [-2] and a newline. *)
Theorem encode_normal_one_line_per_sequence (db : list (list (list Z))) :
  Py.readlines (encode_normal db) = map (encode_seq "") db
  /\ List.length (Py.readlines (encode_normal db)) = List.length db
  /\ Forall (fun line => exists body, line = body ++ "-2" ++ nl)
            (Py.readlines (encode_normal db)).
Proof.
  assert (R : Py.readlines (encode_normal db) = map (encode_seq "") db).
  { rewrite encode_normal_unlines, readlines_unlines, map_map.
    - apply map_ext. intros seq. now rewrite encode_seq_line.
    - apply Forall_map, Forall_forall. intros seq _.
      now rewrite all_chars_app, item_sets_plain. }
  split; [exact R |]. rewrite R. split; [apply length_map |].
  apply Forall_map, Forall_forall. intros seq _.
  exists (render (flat_map item_set_render seq)).
  rewrite encode_seq_line, append_assoc. reflexivity.
Qed.

(** Encoding a collection made of two parts gives the text of the first
    followed by the text of the second. *)
Theorem encode_normal_app (db1 db2 : list (list (list Z))) :
  encode_normal (db1 ++ db2)%list = encode_normal db1 ++ encode_normal db2.
Proof.
  rewrite !encode_normal_render. unfold db_render.
  rewrite flat_map_app. apply render_app.
Qed.

(** Two collections without sentinel items that are encoded to the same
    text are the same collection. *)
Theorem encode_normal_injective (db1 db2 : list (list (list Z))) :
  sentinel_free db1 -> sentinel_free db2 ->
  encode_normal db1 = encode_normal db2 -> db1 = db2.
Proof.
  intros H1 H2 E.
  pose proof (words_encode_normal db1) as W1.
  pose proof (words_encode_normal db2) as W2.
  rewrite E, W2 in W1. injection W1 as W.
  pose proof (regroup_db db1 [] H1) as R1.
  pose proof (regroup_db db2 [] H2) as R2.
  rewrite <- W, R2 in R1. now injection R1 as ->.
Qed.

Lemma encode_normal_injective_witness :
  sentinel_free [[[1; 2]; [3]]]%Z /\ sentinel_free [[[1; 2]; [3]]]%Z
  /\ encode_normal [[[1; 2]; [3]]]%Z = encode_normal [[[1; 2]; [3]]]%Z
  /\ [[[1; 2]; [3]]]%Z = [[[1; 2]; [3]]]%Z.
Proof.
  assert (H : sentinel_free [[[1; 2]; [3]]]%Z) by (repeat constructor; lia).
  split; [exact H |]. split; [exact H |]. split; [reflexivity |].
  exact (encode_normal_injective _ _ H H eq_refl).
Defined.

(** *** [handle_input] and the file system *)

Lemma read_file_remove_other (fs : list (string * string)) (q p : string) :
  p <> q -> read_file (remove_file fs q) p = read_file fs p.
Proof.
  intros N. induction fs as [| [a c] fs IH]; [reflexivity |].
  cbn [remove_file filter fst]. fold (remove_file fs q).
  destruct (String.eqb_spec a q) as [-> | Na]; cbn [negb read_file].
  - rewrite IH. apply String.eqb_neq in N. rewrite String.eqb_sym in N.
    now rewrite N.
  - rewrite IH. reflexivity.
Qed.

Lemma read_file_write_other (fs : list (string * string)) (q c p : string) :
  p <> q -> read_file (write_file fs q c) p = read_file fs p.
Proof.
  intros N. unfold write_file. cbn [read_file].
  destruct (String.eqb_spec q p) as [-> | _]; [now destruct N |].
  now apply read_file_remove_other.
Qed.

(** What [write_temp_input_file] does to the file system: the new file
    holds the text, the counter moves on, every other file but the
    temporary name itself is as before. *)
Lemma write_temp_input_file_world (input_text file_ending : string)
  (w : world) (r : result string) (w' : world) :
  write_temp_input_file input_text file_ending w = (r, w') ->
  r = Ok (tmp_name (tmp_counter w) ++ file_ending)
  /\ read_file (files w') (tmp_name (tmp_counter w) ++ file_ending)
     = Some input_text
  /\ tmp_counter w' = S (tmp_counter w)
  /\ module_dir w' = module_dir w
  /\ forall p, p <> tmp_name (tmp_counter w) ++ file_ending ->
               p <> tmp_name (tmp_counter w) ->
               read_file (files w') p = read_file (files w) p.
Proof.
  unfold write_temp_input_file.
  remember (tmp_name (tmp_counter w)) as name eqn:En. intros H.
  injection H as <- <-. cbn [files tmp_counter module_dir].
  assert (R : read_file (write_file (write_file (files w) name "") name
                           input_text) name = Some input_text)
    by apply read_file_write_file.
  split; [reflexivity |]. split.
  { unfold rename_file. rewrite R. cbn [read_file].
    now rewrite String.eqb_refl. }
  split; [reflexivity |]. split; [reflexivity |].
  intros p N1 N2. unfold rename_file. rewrite R. cbn [read_file].
  destruct (String.eqb_spec (name ++ file_ending) p) as [E | _];
    [now destruct N1 |].
  rewrite !read_file_remove_other by assumption.
  rewrite !read_file_write_other by assumption. reflexivity.
Qed.





Lemma written_input (input_direct : py_input) (content file_ending : string)
  (w w' : world) (path : string) :
  write_temp_input_file content file_ending w = (Ok path, w') ->
  (forall text, input_direct = InStr text -> text = content) ->
  path = tmp_name (tmp_counter w) ++ file_ending
  /\ isfile w' path = true
  /\ (forall text, input_direct = InStr text ->
                   read_file (files w') path = Some text)
  /\ (forall p, p <> path -> p <> tmp_name (tmp_counter w) ->
                read_file (files w') p = read_file (files w) p).
Proof.
  intros H Ht.
  destruct (write_temp_input_file_world _ _ _ _ _ H)
    as (Ep & Hr & _ & _ & Hf).
  assert (E : path = tmp_name (tmp_counter w) ++ file_ending) by congruence.
  clear Ep. subst path.
  split; [reflexivity |]. unfold isfile. rewrite Hr.
  split; [reflexivity |]. split; [| exact Hf].
  intros text E. now rewrite (Ht _ E).
Qed.

(** When [handle_input] returns without a file name given, [input_type]
    is ["normal"] or ["text"], the path returned is the temporary name with
    the extension [.txt] or [.text], it is a file, a [str] input is in it
    verbatim, and every other file but the temporary name itself is as
    before. *)
Theorem handle_input_success (input_direct : py_input) (input_type : string)
  (w w' : world) (path : string) :
  handle_input input_direct "" input_type w = (Ok path, w') ->
  ((input_type = "normal" /\ path = tmp_name (tmp_counter w) ++ ".txt")
   \/ (input_type = "text" /\ path = tmp_name (tmp_counter w) ++ ".text"))
  /\ isfile w' path = true
  /\ (forall text, input_direct = InStr text ->
                   read_file (files w') path = Some text)
  /\ (forall p, p <> path -> p <> tmp_name (tmp_counter w) ->
                read_file (files w') p = read_file (files w) p).
Proof.
  unfold handle_input. cbn [Py.is_empty negb].
  destruct (String.eqb_spec input_type "normal") as [En | N].
  - intros H.
    assert (A : exists content,
               write_temp_input_file content ".txt" w = (Ok path, w')
               /\ forall text, input_direct = InStr text -> text = content).
    { destruct input_direct as [| text | db | l |]; try discriminate H;
        eexists; (split; [exact H |]); intros t E;
        try discriminate E; now injection E. }
    destruct A as (content & Hw & Ht).
    destruct (written_input _ _ _ _ _ _ Hw Ht) as (Hp & Hrest).
    split; [left; split; assumption | exact Hrest].
  - destruct (String.eqb_spec input_type "text") as [Et | T].
    + intros H.
      assert (A : exists content,
                 write_temp_input_file content ".text" w = (Ok path, w')
                 /\ forall text, input_direct = InStr text -> text = content).
      { destruct input_direct as [| text | db | l |]; try discriminate H;
          try (destruct db; [| discriminate H]);
          eexists; (split; [exact H |]); intros t E;
          try discriminate E; now injection E. }
      destruct A as (content & Hw & Ht).
      destruct (written_input _ _ _ _ _ _ Hw Ht) as (Hp & Hrest).
      split; [right; split; assumption | exact Hrest].
    + destruct input_direct; discriminate.
Qed.

Lemma handle_input_success_witness :
  handle_input (InStr "1 -1 -2") "" "text" world_without_engine
    = (Ok "/tmp/tmp0.text",
       {| files := [("/tmp/tmp0.text", "1 -1 -2"); ("data.txt", "1 -1 -2")];
          module_dir := "/usr/lib/python3/site-packages/spmf";
          tmp_counter := 1 |})
  /\ (("text" = "normal"
       /\ "/tmp/tmp0.text"
          = tmp_name (tmp_counter world_without_engine) ++ ".txt")
      \/ ("text" = "text"
          /\ "/tmp/tmp0.text"
             = tmp_name (tmp_counter world_without_engine) ++ ".text"))
  /\ isfile {| files := [("/tmp/tmp0.text", "1 -1 -2");
                         ("data.txt", "1 -1 -2")];
               module_dir := "/usr/lib/python3/site-packages/spmf";
               tmp_counter := 1 |} "/tmp/tmp0.text" = true
  /\ (forall text, InStr "1 -1 -2" = InStr text ->
                   read_file
                     (files {| files := [("/tmp/tmp0.text", "1 -1 -2");
                                         ("data.txt", "1 -1 -2")];
                               module_dir :=
                                 "/usr/lib/python3/site-packages/spmf";
                               tmp_counter := 1 |}) "/tmp/tmp0.text"
                   = Some text)
  /\ (forall p, p <> "/tmp/tmp0.text" ->
                p <> tmp_name (tmp_counter world_without_engine) ->
                read_file
                  (files {| files := [("/tmp/tmp0.text", "1 -1 -2");
                                      ("data.txt", "1 -1 -2")];
                            module_dir :=
                              "/usr/lib/python3/site-packages/spmf";
                            tmp_counter := 1 |}) p
                = read_file (files world_without_engine) p).
Proof.
  split; [vm_compute; reflexivity |].
  apply (handle_input_success (InStr "1 -1 -2") "text" world_without_engine).
  vm_compute; reflexivity.
Defined.

(** ** More on the constructor *)

(** A constructed object names an engine that exists: the caller's
    directory when [spmf.jar] is there, the directory of the module
    otherwise; it starts with no Pattern and no data frame. *)
Theorem init_postconditions (algorithm_name : string)
  (input_direct : py_input)
  (input_type input_filename output_filename : string)
  (arguments : list py_arg) (spmf_bin_location_dir : string) (memory : Z)
  (w w' : world) (self : Spmf) :
  __init__ algorithm_name input_direct input_type input_filename
    output_filename arguments spmf_bin_location_dir memory w = (Ok self, w') ->
  isfile w (Py.path_join (executable_dir_ self) (executable_ self)) = true
  /\ is_exist_executable_ self = true
  /\ (isfile w (Py.path_join spmf_bin_location_dir "spmf.jar") = true ->
      executable_dir_ self = spmf_bin_location_dir)
  /\ (isfile w (Py.path_join spmf_bin_location_dir "spmf.jar") = false ->
      executable_dir_ self = module_dir w)
  /\ parsed_output_ self = [] /\ df_ self = None
  /\ output_ self = output_filename /\ memory_ self = memory.
Proof.
  intros H. unfold __init__ in H.
  destruct (isfile w (Py.path_join spmf_bin_location_dir "spmf.jar")) eqn:E1;
    cbn [negb] in H.
  - destruct (handle_input input_direct input_filename input_type w)
      as [[input | e] w1]; [| discriminate H].
    injection H as <- <-. cbn.
    repeat split; try assumption; try reflexivity; discriminate.
  - destruct (isfile w (Py.path_join (module_dir w) "spmf.jar")) eqn:E2;
      cbn [negb] in H; [| discriminate H].
    destruct (handle_input input_direct input_filename input_type w)
      as [[input | e] w1]; [| discriminate H].
    injection H as <- <-. cbn.
    repeat split; try assumption; try reflexivity; discriminate.
Qed.

Lemma init_postconditions_witness :
  __init__ "PrefixSpan" InNone "normal" "data.txt" "spmf-output.txt"
    [ArgStr "50%"; ArgInt 3] "." 512 (world_with_output "")
  = (Ok {| executable_dir_ := ".";
           executable_ := "spmf.jar";
           is_exist_executable_ := true;
           agorithm_name_ := "PrefixSpan";
           input_ := "data.txt";
           output_ := "spmf-output.txt";
           arguments_ := ["50%"; "3"];
           parsed_output_ := [];
           df_ := None;
           memory_ := 512 |}, world_with_output "")
  /\ isfile (world_with_output "") (Py.path_join "." "spmf.jar") = true
  /\ true = true
  /\ (isfile (world_with_output "") (Py.path_join "." "spmf.jar") = true ->
      "." = ".")
  /\ (isfile (world_with_output "") (Py.path_join "." "spmf.jar") = false ->
      "." = module_dir (world_with_output ""))
  /\ @nil Pattern = [] /\ @None (list Pattern) = None
  /\ "spmf-output.txt" = "spmf-output.txt" /\ 512%Z = 512%Z.
Proof.
  split; [vm_compute; reflexivity |].
  apply (init_postconditions "PrefixSpan" InNone "normal" "data.txt"
           "spmf-output.txt" [ArgStr "50%"; ArgInt 3] "." 512
           (world_with_output "") (world_with_output "")
           {| executable_dir_ := ".";
              executable_ := "spmf.jar";
              is_exist_executable_ := true;
              agorithm_name_ := "PrefixSpan";
              input_ := "data.txt";
              output_ := "spmf-output.txt";
              arguments_ := ["50%"; "3"];
              parsed_output_ := [];
              df_ := None;
              memory_ := 512 |}).
  vm_compute; reflexivity.
Defined.

(** With a file name and an engine in place the constructor returns,
    whatever [input_direct] and [input_type] are; the name is taken as it
    is and the file system is left as it was. *)
Theorem init_with_input_filename (algorithm_name : string)
  (input_direct : py_input)
  (input_type input_filename output_filename : string)
  (arguments : list py_arg) (spmf_bin_location_dir : string) (memory : Z)
  (w : world) :
  input_filename <> "" ->
  isfile w (Py.path_join spmf_bin_location_dir "spmf.jar") = true
  \/ isfile w (Py.path_join (module_dir w) "spmf.jar") = true ->
  exists self,
    __init__ algorithm_name input_direct input_type input_filename
      output_filename arguments spmf_bin_location_dir memory w = (Ok self, w)
    /\ input_ self = input_filename.
Proof.
  intros Hf He.
  assert (Hh : handle_input input_direct input_filename input_type w
               = (Ok input_filename, w)).
  { unfold handle_input. destruct input_filename; [now destruct Hf |].
    reflexivity. }
  unfold __init__. rewrite Hh.
  destruct (isfile w (Py.path_join spmf_bin_location_dir "spmf.jar")) eqn:E1;
    cbn [negb].
  - eexists. split; reflexivity.
  - destruct He as [He | He]; [discriminate He |]. rewrite He. cbn [negb].
    eexists. split; reflexivity.
Qed.

Lemma init_with_input_filename_witness :
  "data.txt" <> ""
  /\ (isfile (world_with_output "") (Py.path_join "." "spmf.jar") = true
      \/ isfile (world_with_output "")
           (Py.path_join (module_dir (world_with_output "")) "spmf.jar")
         = true)
  /\ exists self,
       __init__ "PrefixSpan" InObject "csv" "data.txt" "spmf-output.txt"
         [] "." 0 (world_with_output "") = (Ok self, world_with_output "")
       /\ input_ self = "data.txt".
Proof.
  split; [discriminate |]. split; [left; reflexivity |].
  apply (init_with_input_filename "PrefixSpan" InObject "csv" "data.txt"
           "spmf-output.txt" [] "." 0 (world_with_output ""));
    [discriminate | left; reflexivity].
Defined.



(** ** More on the engine invocation *)

Lemma starts_with_spec (sub s : list N) :
  Py.starts_with sub s = true <-> exists b, s = (sub ++ b)%list.
Proof.
  revert s. induction sub as [| x sub IH]; intros s.
  - split; [intros _; now exists s | reflexivity].
  - destruct s as [| y s]; cbn [Py.starts_with].
    + split; [discriminate | intros [b E]; discriminate E].
    + rewrite andb_true_iff, N.eqb_eq, IH. split.
      * intros [-> [b ->]]. now exists b.
      * intros [b E]. injection E as -> ->. split; [reflexivity | now exists b].
Qed.

(** [sub in s] on code points holds exactly when [s] has [sub] somewhere
    inside. *)
Lemma contains_points_spec (sub s : list N) :
  Py.contains_points sub s = true
  <-> exists a b, s = (a ++ sub ++ b)%list.
Proof.
  induction s as [| y s IH].
  - cbn [Py.contains_points]. rewrite orb_false_r, starts_with_spec. split.
    + intros [b E]. now exists [], b.
    + intros (a & b & E). destruct a; [now exists b | discriminate E].
  - cbn [Py.contains_points]. rewrite orb_true_iff, starts_with_spec, IH.
    split.
    + intros [[b E] | (a & b & E)].
      * now exists [], b.
      * exists (y :: a), b. now rewrite E.
    + intros (a & b & E). destruct a as [| x a].
      * left. now exists b.
      * right. injection E as _ E. now exists a, b.
Qed.

Lemma bind_Raise {A B : Type} (m : result A) (f : A -> result B) (e : exn) :
  bind m f = Raise e -> m = Raise e \/ exists a, m = Ok a /\ f a = Raise e.
Proof.
  destruct m as [a | e']; cbn [bind]; intros H.
  - right. now exists a.
  - left. now injection H as ->.
Qed.

(** Decoding raises nothing but [UnicodeDecodeError]. *)
Lemma utf8_decode_raises (b : string) (e : exn) :
  Py.utf8_decode b = Raise e -> e = UnicodeDecodeError "utf-8".
Proof.
  remember (String.length b) as n eqn:En. revert b En.
  induction n as [n IH] using lt_wf_ind. intros b En H.
  assert (Rec : forall r, String.length r < n ->
                          forall a : list N -> result (list N),
                          (forall l, a l <> Raise e) ->
                          bind (Py.utf8_decode r) a = Raise e ->
                          e = UnicodeDecodeError "utf-8").
  { intros r Hr a Ha Hb. apply bind_Raise in Hb.
    destruct Hb as [Hb | (l & _ & Hb)]; [| now destruct (Ha l)].
    exact (IH _ Hr r eq_refl Hb). }
  assert (Err : @Py.decode_error (list N) = Raise e ->
                e = UnicodeDecodeError "utf-8")
    by (unfold Py.decode_error; now intros [= <-]).
  destruct b as [| c0 r0]; [discriminate H |].
  cbn [Py.utf8_decode] in H. cbn [String.length] in En.
  destruct (N.ltb (N_of_ascii c0) 128).
  { apply (Rec r0) in H; [exact H | lia | discriminate]. }
  destruct (Py.in_range 194 223 c0).
  { destruct r0 as [| c1 r1]; [exact (Err H) |].
    destruct (Py.in_range 128 191 c1); [| exact (Err H)].
    apply (Rec r1) in H; [exact H | cbn [String.length] in En; lia
                         | discriminate]. }
  destruct (Py.in_range 224 239 c0).
  { destruct r0 as [| c1 [| c2 r2]]; try exact (Err H).
    match type of H with
    | (if ?c then _ else _) = _ => destruct c; [| exact (Err H)]
    end.
    apply (Rec r2) in H; [exact H | cbn [String.length] in En; lia
                         | discriminate]. }
  destruct (Py.in_range 240 244 c0); [| exact (Err H)].
  destruct r0 as [| c1 [| c2 [| c3 r3]]]; try exact (Err H).
  match type of H with
  | (if ?c then _ else _) = _ => destruct c; [| exact (Err H)]
  end.
  apply (Rec r3) in H; [exact H | cbn [String.length] in En; lia
                       | discriminate].
Qed.

(** [run] passes on the exception of a failed call.  After a call that
    returns, the bytes are decoded: bytes that are not UTF-8 make [run]
    raise [UnicodeDecodeError]; otherwise it raises the [TypeError] exactly
    when the decoded text has [java.lang.IllegalArgumentException]
    somewhere inside, and returns when it has not. *)
Theorem run_outcome (check_output : list string -> result string)
  (self : Spmf) :
  (forall e, check_output (subprocess_arguments self) = Raise e ->
             run check_output self = Raise e)
  /\ (forall proc, check_output (subprocess_arguments self) = Ok proc ->
        (forall e, Py.utf8_decode proc = Raise e ->
                   e = UnicodeDecodeError "utf-8"
                   /\ run check_output self = Raise e)
        /\ (forall text, Py.utf8_decode proc = Ok text ->
              (run check_output self
                 = Raise (TypeError "java.lang.IllegalArgumentException")
               <-> exists a b,
                     text
                     = (a ++ Py.code_points "java.lang.IllegalArgumentException"
                          ++ b)%list)
              /\ (run check_output self = Ok tt
                  <-> ~ exists a b,
                          text
                          = (a ++ Py.code_points
                                    "java.lang.IllegalArgumentException"
                               ++ b)%list))).
Proof.
  split.
  - intros e H. unfold run. now rewrite H.
  - intros proc H. split.
    + intros e He. split; [exact (utf8_decode_raises _ _ He) |].
      unfold run. rewrite H. cbn [bind]. now rewrite He.
    + intros text Ht. unfold run. rewrite H. cbn [bind]. rewrite Ht.
      cbn [bind].
      destruct (Py.contains_points
                  (Py.code_points "java.lang.IllegalArgumentException") text)
        eqn:E.
      * apply contains_points_spec in E.
        split; split; try discriminate; auto. intros N. now destruct N.
      * assert (N : ~ exists a b,
                     text
                     = (a ++ Py.code_points
                               "java.lang.IllegalArgumentException" ++ b)%list).
        { intros C. apply contains_points_spec in C. rewrite C in E.
          discriminate E. }
        split; split; try discriminate; auto. intros C. now destruct N.
Qed.

(** ** The data frame *)

Lemma rows_of_patterns (l acc : list Pattern) :
  fold_left
    (fun acc '(pattern, support, sequence_ids) =>
       (acc ++ [(pattern, support, sequence_ids)])%list) l acc
  = (acc ++ l)%list.
Proof.
  revert acc. induction l as [| [[a b] c] l IH]; intros acc; cbn [fold_left].
  - now rewrite app_nil_r.
  - rewrite IH, <- app_assoc. reflexivity.
Qed.

(** With Patterns already stored, the data frame is built from them, one
    row per Pattern in order, and the output file is not read: the result
    is the same in every file system. *)
Theorem to_pandas_dataframe_uses_stored
  (to_pickle : list Pattern -> string) (w : world) (self : Spmf) :
  parsed_output_ self <> [] ->
  to_pandas_dataframe to_pickle false w self
  = (Ok (parsed_output_ self), set_df_ self (Some (parsed_output_ self)), w).
Proof.
  intros H. unfold to_pandas_dataframe.
  destruct (parsed_output_ self) as [| p ps] eqn:E; [now destruct H |].
  cbn [set_df_ parsed_output_]. rewrite E, rows_of_patterns. reflexivity.
Qed.

Lemma to_pandas_dataframe_uses_stored_witness :
  parsed_output_
    (set_parsed_output_ (fresh_object "spmf-output.txt" 0) [([1], 3, [0])]%Z)
  <> []
  /\ to_pandas_dataframe (fun _ => "") false world_without_engine
       (set_parsed_output_ (fresh_object "spmf-output.txt" 0)
          [([1], 3, [0])]%Z)
     = (Ok (parsed_output_
              (set_parsed_output_ (fresh_object "spmf-output.txt" 0)
                 [([1], 3, [0])]%Z)),
        set_df_
          (set_parsed_output_ (fresh_object "spmf-output.txt" 0)
             [([1], 3, [0])]%Z)
          (Some (parsed_output_
                   (set_parsed_output_ (fresh_object "spmf-output.txt" 0)
                      [([1], 3, [0])]%Z))),
        world_without_engine).
Proof.
  split; [discriminate |].
  apply (to_pandas_dataframe_uses_stored (fun _ => "") world_without_engine
           (set_parsed_output_ (fresh_object "spmf-output.txt" 0)
              [([1], 3, [0])]%Z)).
  discriminate.
Defined.

(** With no Pattern stored the file is decoded first; when that raises,
    [to_pandas_dataframe] raises the same exception, sets no data frame
    and writes no pickle. *)
Theorem to_pandas_dataframe_failure
  (to_pickle : list Pattern -> string) (pickle : bool) (w : world)
  (self self' : Spmf) (e : exn) :
  parsed_output_ self = [] ->
  parse_output w self = (Raise e, self') ->
  to_pandas_dataframe to_pickle pickle w self = (Raise e, self, w).
Proof.
  intros Hn H. unfold to_pandas_dataframe. rewrite Hn, H.
  unfold parse_output in H.
  destruct (read_file (files w) (output_ self)) as [content |].
  - destruct (parse_lines (Py.readlines content) []); [discriminate H |].
    now injection H as _ <-.
  - now injection H as _ <-.
Qed.

Lemma to_pandas_dataframe_failure_witness :
  parsed_output_ (fresh_object "spmf-output.txt" 0) = []
  /\ parse_output (world_with_output line_garbage)
                  (fresh_object "spmf-output.txt" 0)
     = (Raise (RuntimeError unparsable_message),
        fresh_object "spmf-output.txt" 0)
  /\ to_pandas_dataframe (fun _ => "") true (world_with_output line_garbage)
       (fresh_object "spmf-output.txt" 0)
     = (Raise (RuntimeError unparsable_message),
        fresh_object "spmf-output.txt" 0, world_with_output line_garbage).
Proof.
  assert (H : parse_output (world_with_output line_garbage)
                (fresh_object "spmf-output.txt" 0)
              = (Raise (RuntimeError unparsable_message),
                 fresh_object "spmf-output.txt" 0))
    by (vm_compute; reflexivity).
  split; [reflexivity |]. split; [exact H |].
  exact (to_pandas_dataframe_failure (fun _ => "") true
           (world_with_output line_garbage)
           (fresh_object "spmf-output.txt" 0) _ _ eq_refl H).
Defined.



Lemma split_no_occurrence (sep s cur : string) :
  Py.contains sep s = false -> Py.split_go sep 0 cur s = [cur ++ s].
Proof.
  revert cur. induction s as [| c s IH]; intros cur H.
  - now rewrite append_nil_r.
  - rewrite contains_cons in H. apply orb_false_iff in H.
    destruct H as [Hp Hc].
    rewrite split_go_cons, Hp, (IH _ Hc), append_assoc. reflexivity.
Qed.

Lemma str_replace_no_occurrence (old new s : string) :
  Py.contains old s = false -> str_replace old new s = s.
Proof.
  intros H. unfold str_replace, Py.split.
  now rewrite (split_no_occurrence _ _ "" H).
Qed.

(** When the name of the output file has no [.txt] in it, the pickle is
    written over the output file itself: whenever [to_pandas_dataframe]
    with [pickle] on returns a frame, on an object with Patterns stored or
    on one that has to decode first, the output file then holds the pickle
    of that frame. *)
Theorem to_pandas_dataframe_pickle_overwrites
  (to_pickle : list Pattern -> string) (w w' : world) (self self' : Spmf)
  (df : list Pattern) :
  Py.contains ".txt" (output_ self) = false ->
  to_pandas_dataframe to_pickle true w self = (Ok df, self', w') ->
  read_file (files w') (output_ self) = Some (to_pickle df)
  /\ df = parsed_output_ self' /\ df_ self' = Some df
  /\ output_ self' = output_ self.
Proof.
  intros Hc. unfold to_pandas_dataframe.
  destruct (parsed_output_ self) as [| p ps] eqn:E.
  - destruct (parse_output w self) as [[[] | e] self1] eqn:Hp;
      [| discriminate].
    assert (Ho : output_ self1 = output_ self).
    { unfold parse_output in Hp.
      destruct (read_file (files w) (output_ self)); [| discriminate Hp].
      destruct (parse_lines (Py.readlines s) []); [| discriminate Hp].
      now injection Hp as <-. }
    rewrite rows_of_patterns. cbn [app set_df_ output_ parsed_output_ df_].
    rewrite Ho, (str_replace_no_occurrence _ _ _ Hc).
    intros [= <- <- <-]. cbn [files parsed_output_ df_ output_].
    rewrite read_file_write_file. repeat split. exact Ho.
  - rewrite rows_of_patterns. cbn [app set_df_ output_ parsed_output_ df_].
    rewrite E, (str_replace_no_occurrence _ _ _ Hc).
    intros [= <- <- <-]. cbn [files parsed_output_ df_ output_].
    rewrite read_file_write_file. repeat split. symmetry. exact E.
Qed.

Lemma to_pandas_dataframe_pickle_overwrites_witness :
  Py.contains ".txt" (output_ (fresh_object "out.dat" 0)) = false
  /\ to_pandas_dataframe (fun _ => "pickled") true
       {| files := [("out.dat", line_single_items)];
          module_dir := "/usr/lib/python3/site-packages/spmf";
          tmp_counter := 0 |}
       (fresh_object "out.dat" 0)
     = (Ok [([1], 3, [0; 1; 2])]%Z,
        set_df_ (set_parsed_output_ (fresh_object "out.dat" 0)
                   [([1], 3, [0; 1; 2])]%Z)
                (Some [([1], 3, [0; 1; 2])]%Z),
        {| files := [("out.dat", "pickled")];
           module_dir := "/usr/lib/python3/site-packages/spmf";
           tmp_counter := 0 |})
  /\ (read_file (files {| files := [("out.dat", "pickled")];
                          module_dir := "/usr/lib/python3/site-packages/spmf";
                          tmp_counter := 0 |})
                (output_ (fresh_object "out.dat" 0))
      = Some ((fun _ : list Pattern => "pickled") [([1], 3, [0; 1; 2])]%Z)
      /\ [([1], 3, [0; 1; 2])]%Z
         = parsed_output_
             (set_df_ (set_parsed_output_ (fresh_object "out.dat" 0)
                         [([1], 3, [0; 1; 2])]%Z)
                      (Some [([1], 3, [0; 1; 2])]%Z))
      /\ df_ (set_df_ (set_parsed_output_ (fresh_object "out.dat" 0)
                         [([1], 3, [0; 1; 2])]%Z)
                      (Some [([1], 3, [0; 1; 2])]%Z))
         = Some [([1], 3, [0; 1; 2])]%Z
      /\ output_ (set_df_ (set_parsed_output_ (fresh_object "out.dat" 0)
                             [([1], 3, [0; 1; 2])]%Z)
                          (Some [([1], 3, [0; 1; 2])]%Z))
         = output_ (fresh_object "out.dat" 0)).
Proof.
  assert (H : to_pandas_dataframe (fun _ => "pickled") true
                {| files := [("out.dat", line_single_items)];
                   module_dir := "/usr/lib/python3/site-packages/spmf";
                   tmp_counter := 0 |}
                (fresh_object "out.dat" 0)
              = (Ok [([1], 3, [0; 1; 2])]%Z,
                 set_df_ (set_parsed_output_ (fresh_object "out.dat" 0)
                            [([1], 3, [0; 1; 2])]%Z)
                         (Some [([1], 3, [0; 1; 2])]%Z),
                 {| files := [("out.dat", "pickled")];
                    module_dir := "/usr/lib/python3/site-packages/spmf";
                    tmp_counter := 0 |}))
    by (vm_compute; reflexivity).
  split; [reflexivity |]. split; [exact H |].
  exact (to_pandas_dataframe_pickle_overwrites (fun _ => "pickled")
           {| files := [("out.dat", line_single_items)];
              module_dir := "/usr/lib/python3/site-packages/spmf";
              tmp_counter := 0 |}
           _ (fresh_object "out.dat" 0) _ _ eq_refl H).
Defined.

(** ** Itemsets of several items *)

Lemma literal_digits_bad_char (u : string) (c : ascii) (v : string)
  (prev : bool) :
  Py.isdigit c = false -> Ascii.eqb c "_" = false ->
  Py.literal_digits prev (u ++ String c v) = None.
Proof.
  intros Hd Hu. revert prev. induction u as [| x u IH]; intros prev.
  - cbn [append Py.literal_digits]. now rewrite Hd, Hu.
  - cbn [append Py.literal_digits].
    destruct (Py.isdigit x); [now rewrite IH |].
    destruct (Ascii.eqb x "_"); [| reflexivity].
    destruct prev; [apply IH | reflexivity].
Qed.

Lemma unsigned_literal_with_blank (u v : string) :
  Py.unsigned_literal (u ++ String " " v) = None.
Proof.
  unfold Py.unsigned_literal.
  now rewrite literal_digits_bad_char by reflexivity.
Qed.

Lemma rskip_keeps_token (p : ascii -> bool) (a t : string) :
  t <> "" -> all_chars (fun c => negb (p c)) t = true ->
  Py.rskip p (a ++ t) = a ++ t.
Proof.
  intros Hne Ht. induction a as [| c a IH].
  - exact (rskip_none _ _ Ht).
  - change (Py.rskip p (String c a ++ t))
      with (match Py.rskip p (a ++ t) with
            | "" => if p c then "" else String c ""
            | String c' r' => String c (String c' r')
            end).
    rewrite IH. change (String c a ++ t) with (String c (a ++ t)).
    destruct (a ++ t) eqn:E; [| reflexivity].
    destruct a; [| discriminate E]. now destruct Hne.
Qed.

(** Text that starts with a token and ends with one is read by [int] as
    it stands. *)
Lemma int_skip_between_tokens (t1 a t2 : string) :
  is_token t1 -> is_token t2 ->
  Py.rskip Py.int_space (Py.lskip Py.int_space (t1 ++ a ++ t2))
  = t1 ++ a ++ t2.
Proof.
  intros [Hne1 H1] [Hne2 H2].
  apply no_space_no_int_space in H1, H2.
  destruct t1 as [| c t1]; [now destruct Hne1 |].
  cbn [all_chars] in H1. apply andb_true_iff in H1. destruct H1 as [Hc _].
  apply negb_true_iff in Hc.
  assert (Hl : Py.lskip Py.int_space (String c t1 ++ a ++ t2)
               = String c t1 ++ a ++ t2).
  { cbn [append Py.lskip]. now rewrite Hc. }
  rewrite Hl, <- (append_assoc (String c t1) a t2).
  now apply rskip_keeps_token.
Qed.

(** [int] rejects two tokens separated by a blank. *)
Lemma int_two_tokens (t1 t2 : string) :
  is_token t1 -> is_token t2 ->
  Py.int (t1 ++ " " ++ t2) = Raise (ValueError (t1 ++ " " ++ t2)).
Proof.
  intros H1 H2. unfold Py.int.
  rewrite (int_skip_between_tokens t1 " " t2 H1 H2).
  destruct t1 as [| c r]; [now destruct (proj1 H1) |].
  change (String c r ++ " " ++ t2) with (String c (r ++ String " " t2)).
  cbv iota beta.
  pose proof (unsigned_literal_with_blank (String c r) t2) as U.
  change (String c r ++ String " " t2)
    with (String c (r ++ String " " t2)) in U.
  rewrite U, unsigned_literal_with_blank.
  destruct (Ascii.eqb c "-"); [reflexivity |].
  destruct (Ascii.eqb c "+"); reflexivity.
Qed.

Lemma split_go_token (sep' t rest cur : string) :
  all_chars not_space t = true ->
  Py.split_go (String " " sep') 0 cur (t ++ rest)
  = Py.split_go (String " " sep') 0 (cur ++ t) rest.
Proof.
  revert cur. induction t as [| c t IH]; intros cur H.
  - now rewrite append_nil_r.
  - cbn [all_chars] in H. apply andb_true_iff in H. destruct H as [Hc Ht].
    change (String c t ++ rest) with (String c (t ++ rest)).
    rewrite split_go_cons, prefix_cons.
    assert (E : Ascii.eqb " " c = false).
    { destruct (Ascii.eqb_spec " " c); [subst c; discriminate Hc | reflexivity]. }
    rewrite E, (IH _ Ht), append_assoc. reflexivity.
Qed.

(** The first fragment of such a body is the pair of items with the blank
    between them. *)
Lemma split_two_item_body (a b : Z) (elems : list Z) :
  (0 <= b)%Z ->
  Py.split " -1 " (render_two_item_body a b elems)
  = (Py.str a ++ " " ++ Py.str b) :: Py.split " -1 " (render_body elems).
Proof.
  intros Hb. unfold Py.split, render_two_item_body.
  rewrite (split_go_token "-1 " _ _ "" (str_not_space a)).
  pose proof (str_nonneg_digits b Hb) as Hd.
  pose proof (str_nonempty b) as Hn.
  pose proof (str_not_space b) as Hs.
  destruct (Py.str b) as [| d r] eqn:E; [now destruct Hn |].
  cbn [all_chars] in Hd. apply andb_true_iff in Hd. destruct Hd as [Hd _].
  destruct (isdigit_not_sign _ Hd) as (Hm & _ & _).
  change (" " ++ String d r ++ " -1 " ++ render_body elems)
    with (String " " (String d (r ++ " -1 " ++ render_body elems))).
  rewrite split_go_cons, !prefix_cons.
  rewrite Ascii.eqb_refl, (Ascii.eqb_sym "-" d), Hm.
  change (String d (r ++ " -1 " ++ render_body elems))
    with (String d r ++ String " " "-1 " ++ render_body elems).
  rewrite (split_go_token_sep "-1 " _ _ _ Hs).
  rewrite !append_assoc. reflexivity.
Qed.

(** A line whose first itemset holds two items is not decoded: [int] is
    given both items at once and raises [ValueError]. *)
Theorem parse_line_two_item_itemset (a b : Z) (elems : list Z) (sup : Z)
  (sids : list Z) (w : string) :
  (0 <= b)%Z -> (0 <= sup)%Z ->
  sids <> [] -> Forall (fun i => (0 <= i)%Z) sids ->
  all_chars Py.isspace w = true ->
  parse_line ((render_two_item_body a b elems ++ render_tail sup sids) ++ w)
  = Raise (ValueError (Py.str a ++ " " ++ Py.str b)).
Proof.
  intros Hb Hsup Hs Hpos Hw.
  destruct (concat_ids_last sids Hs) as (pre & l & El).
  assert (R : render_two_item_body a b elems ++ render_tail sup sids
              = Py.str a
                ++ (" " ++ Py.str b ++ " -1 " ++ render_body elems
                    ++ "#SUP: " ++ Py.str sup ++ " #SID: " ++ pre)
                ++ Py.str l).
  { unfold render_two_item_body, render_tail. rewrite El.
    rewrite !append_assoc. reflexivity. }
  assert (E : Py.strip ((render_two_item_body a b elems
                         ++ render_tail sup sids) ++ w)
              = render_two_item_body a b elems ++ render_tail sup sids).
  { rewrite R. apply strip_between_tokens;
      [apply str_is_token .. | exact Hw]. }
  assert (Hn : render_two_item_body a b elems <> "")
    by (apply append_nonempty_l, str_nonempty).
  assert (Hc : all_chars not_newline (render_two_item_body a b elems) = true).
  { apply (all_chars_impl _ _ _ plain_not_newline).
    unfold render_two_item_body.
    rewrite !all_chars_app, render_body_chars.
    rewrite (all_chars_impl _ _ _ str_char_plain (str_chars a)).
    now rewrite (all_chars_impl _ _ _ str_char_plain (str_chars b)). }
  rewrite (parse_line_of_format _ _ (Py.str sup)
             (String.concat " " (map Py.str sids)) E Hn Hc
             (str_nonempty sup) (str_nonneg_digits _ Hsup)
             (concat_ids_nonempty _ Hs) (concat_ids_chars _ Hpos)).
  rewrite (split_two_item_body a b elems Hb). cbn [filter].
  assert (L : Nat.ltb 0 (String.length (Py.str a ++ " " ++ Py.str b)) = true).
  { pose proof (str_nonempty a) as Na.
    destruct (Py.str a); [now destruct Na | reflexivity]. }
  rewrite L. cbn [map_result].
  rewrite (int_two_tokens _ _ (str_is_token a) (str_is_token b)).
  reflexivity.
Qed.

Lemma parse_line_two_item_itemset_witness :
  (0 <= 2)%Z /\ (0 <= 2)%Z /\ [0; 1]%Z <> []
  /\ Forall (fun i => (0 <= i)%Z) [0; 1]%Z
  /\ all_chars Py.isspace nl = true
  /\ parse_line ((render_two_item_body 1 2 [3]%Z ++ render_tail 2 [0; 1]%Z)
                 ++ nl)
     = Raise (ValueError (Py.str 1 ++ " " ++ Py.str 2)).
Proof.
  assert (H : Forall (fun i => (0 <= i)%Z) [0; 1]%Z)
    by (repeat constructor; lia).
  split; [lia |]. split; [lia |]. split; [discriminate |].
  split; [exact H |]. split; [reflexivity |].
  apply (parse_line_two_item_itemset 1 2 [3]%Z 2 [0; 1]%Z nl);
    [lia | lia | discriminate | exact H | reflexivity].
Defined.
